(** * pelican-ipynb, [core.py]: notebook slicing, template expansion, CSS finishing

    A shallow embedding of the parts of [core.py] that do not belong to
    nbconvert, pygments or BeautifulSoup:
    - [SubCell.preprocess]                 (module [Slicer]),
    - the markdown-template loop of [get_html_from_filepath]
                                           (module [Expander]),
    - [parse_css] with [style_tag] and [filter_css]
                                           (module [Css]).

    Python values are modelled as follows.  A [str] is the list of its
    Unicode code points; a [list] is a [list]; a [dict] with string keys is
    a [gmap string _]; a raised exception is the [Raise] case of [result];
    local variables that live from one loop iteration to the next are
    threaded explicitly. *)

From Stdlib Require Import ZArith NArith List String Ascii Bool Lia.
From stdpp Require Import base option list strings gmap.

Local Open Scope N_scope.

(** ** Python strings *)

Module PyStr.

Definition char := N.
Definition str := list char.

(** The source file is UTF-8, so is this one: a literal is written as it
    is in [core.py] and decoded to code points. *)
Fixpoint utf8_decode (bs : list N) : str :=
  match bs with
  | [] => []
  | b0 :: r0 =>
    if b0 <? 0x80 then b0 :: utf8_decode r0
    else
      match r0 with
      | [] => [b0]
      | b1 :: r1 =>
        if b0 <? 0xE0 then
          N.lor (N.shiftl (N.land b0 0x1F) 6) (N.land b1 0x3F) :: utf8_decode r1
        else
          match r1 with
          | [] => [b0; b1]
          | b2 :: r2 =>
            if b0 <? 0xF0 then
              N.lor (N.shiftl (N.land b0 0x0F) 12)
                    (N.lor (N.shiftl (N.land b1 0x3F) 6) (N.land b2 0x3F))
                :: utf8_decode r2
            else
              match r2 with
              | [] => [b0; b1; b2]
              | b3 :: r3 =>
                N.lor (N.shiftl (N.land b0 0x07) 18)
                      (N.lor (N.shiftl (N.land b1 0x3F) 12)
                             (N.lor (N.shiftl (N.land b2 0x3F) 6) (N.land b3 0x3F)))
                  :: utf8_decode r3
              end
          end
      end
  end.

Definition py (s : string) : str :=
  utf8_decode (map N_of_ascii (list_ascii_of_string s)).

(** The two characters a Rocq literal cannot hold as they are. *)
Definition dq : str := [34].
Definition nl : str := [10].

(** [a == b] *)
Fixpoint str_eqb (a b : str) : bool :=
  match a, b with
  | [], [] => true
  | x :: a', y :: b' => (x =? y) && str_eqb a' b'
  | _, _ => false
  end.

(** [s.startswith(p)] *)
Fixpoint startswith (p s : str) : bool :=
  match p, s with
  | [], _ => true
  | x :: p', y :: s' => (x =? y) && startswith p' s'
  | _ :: _, [] => false
  end.

(** [p in s] *)
Fixpoint contains (p s : str) : bool :=
  startswith p s ||
  match s with
  | [] => false
  | _ :: s' => contains p s'
  end.

(** [s.find(p)]: the least index at which [p] occurs, [-1] if none. *)
Fixpoint find_from (p s : str) (i : Z) : Z :=
  if startswith p s then i
  else
    match s with
    | [] => (-1)%Z
    | _ :: s' => find_from p s' (i + 1)%Z
    end.

Definition find (p s : str) : Z := find_from p s 0%Z.

(** [s.replace(old, new)]: the occurrences of [old] are taken from left
    to right and do not overlap; [skip] counts the characters of the
    current occurrence that are still to be passed over. *)
Fixpoint replace_from (old new : str) (skip : nat) (s : str) : str :=
  match s with
  | [] => []
  | c :: s' =>
    match skip with
    | S k => replace_from old new k s'
    | O =>
      if startswith old s
      then new ++ replace_from old new (List.length old - 1) s'
      else c :: replace_from old new 0 s'
    end
  end.

Definition replace (old new s : str) : str :=
  match old with
  | [] => new ++ flat_map (fun c => c :: new) s
  | _ :: _ => replace_from old new 0 s
  end.

(** [sep.join(l)] *)
Fixpoint join (sep : str) (l : list str) : str :=
  match l with
  | [] => []
  | [x] => x
  | x :: l' => x ++ sep ++ join sep l'
  end.

(** Truth value of a string: non-empty. *)
Definition truthy (s : str) : bool :=
  match s with [] => false | _ :: _ => true end.

(** Number of positions of [s] at which [p] occurs (used in statements,
    not by the program). *)
Fixpoint occurrences (p s : str) : nat :=
  (if startswith p s then 1 else 0)%nat +
  match s with
  | [] => 0%nat
  | _ :: s' => occurrences p s'
  end.

(** [re.sub(pattern, '', s)] for a pattern that matches no empty string:
    [m s] is the length of the match anchored at the head of [s], if
    there is one; matches are taken from left to right and deleted. *)
Fixpoint re_delete (m : str -> option nat) (skip : nat) (s : str) : str :=
  match s with
  | [] => []
  | c :: s' =>
    match skip with
    | S k => re_delete m k s'
    | O =>
      match m s with
      | Some (S k) => re_delete m k s'
      | _ => c :: re_delete m 0 s'
      end
    end
  end.

(** [\s] of a [str] pattern: the code points for which [str.isspace]
    holds. *)
Definition is_space (c : char) : bool :=
  ((0x09 <=? c) && (c <=? 0x0D)) || ((0x1C <=? c) && (c <=? 0x20)) ||
  (c =? 0x85) || (c =? 0xA0) || (c =? 0x1680) ||
  ((0x2000 <=? c) && (c <=? 0x200A)) || (c =? 0x2028) || (c =? 0x2029) ||
  (c =? 0x202F) || (c =? 0x205F) || (c =? 0x3000).

(** [str.lower] on text whose cased letters are all ASCII. *)
Definition ascii_lower (s : str) : str :=
  map (fun c => if (0x41 <=? c) && (c <=? 0x5A) then c + 32 else c) s.

Definition in_range (lo hi : string) (c : char) : bool :=
  match py lo, py hi with
  | [a], [b] => (a <=? c) && (c <=? b)
  | _, _ => false
  end.

(** [c] is one of the characters of [set]. *)
Definition one_of (set : string) (c : char) : bool :=
  existsb (N.eqb c) (py set).

End PyStr.

Import PyStr.
Arguments py : simpl never.

(** ** Exceptions *)

Inductive exn : Type :=
| ValueError          (* unpacking a list of the wrong length *)
| IndexError          (* list index out of range *)
| AssertionError (msg : str)
| UnboundLocalError   (* a local variable read before any assignment *)
| AttributeError      (* a method called on [None] *)
| KeyError (key : string).

Inductive result (A : Type) : Type :=
| Ok (a : A)
| Raise (e : exn).

Arguments Ok {A} a.
Arguments Raise {A} e.

(** Sequencing: an exception ends the computation. *)
#[global] Instance result_bind : MBind result := fun A B k r =>
  match r with
  | Ok a => k a
  | Raise e => Raise e
  end.

(** [l[i]] *)
Definition getitem {A : Type} (l : list A) (i : nat) : result A :=
  match l !! i with
  | Some x => Ok x
  | None => Raise IndexError
  end.

(** ** CSS finisher: [parse_css] *)

Module Css.

Definition LATEX_CUSTOM_SCRIPT : str :=
nl ++
py "<script type=" ++ dq ++ py "text/javascript" ++ dq ++ py ">if (!document.getElementById('mathjaxscript_pelican_#%@#$@#')) {" ++ nl ++
py "    var mathjaxscript = document.createElement('script');" ++ nl ++
py "    mathjaxscript.id = 'mathjaxscript_pelican_#%@#$@#';" ++ nl ++
py "    mathjaxscript.type = 'text/javascript';" ++ nl ++
py "    mathjaxscript.src = '//cdnjs.cloudflare.com/ajax/libs/mathjax/2.7.1/MathJax.js?config=TeX-AMS-MML_HTMLorMML';" ++ nl ++
py "    mathjaxscript[(window.opera ? " ++ dq ++ py "innerHTML" ++ dq ++ py " : " ++ dq ++ py "text" ++ dq ++ py ")] =" ++ nl ++
py "        " ++ dq ++ py "MathJax.Hub.Config({" ++ dq ++ py " +" ++ nl ++
py "        " ++ dq ++ py "    config: ['MMLorHTML.js']," ++ dq ++ py " +" ++ nl ++
py "        " ++ dq ++ py "    TeX: { extensions: ['AMSmath.js','AMSsymbols.js','noErrors.js','noUndefined.js'], equationNumbers: { autoNumber: 'AMS' } }," ++ dq ++ py " +" ++ nl ++
py "        " ++ dq ++ py "    jax: ['input/TeX','input/MathML','output/HTML-CSS']," ++ dq ++ py " +" ++ nl ++
py "        " ++ dq ++ py "    extensions: ['tex2jax.js','mml2jax.js','MathMenu.js','MathZoom.js']," ++ dq ++ py " +" ++ nl ++
py "        " ++ dq ++ py "    displayAlign: 'center'," ++ dq ++ py " +" ++ nl ++
py "        " ++ dq ++ py "    displayIndent: '0em'," ++ dq ++ py " +" ++ nl ++
py "        " ++ dq ++ py "    showMathMenu: true," ++ dq ++ py " +" ++ nl ++
py "        " ++ dq ++ py "    tex2jax: { " ++ dq ++ py " +" ++ nl ++
py "        " ++ dq ++ py "        inlineMath: [ ['$','$'] ], " ++ dq ++ py " +" ++ nl ++
py "        " ++ dq ++ py "        displayMath: [ ['$$','$$'] ]," ++ dq ++ py " +" ++ nl ++
py "        " ++ dq ++ py "        processEscapes: true," ++ dq ++ py " +" ++ nl ++
py "        " ++ dq ++ py "        preview: 'TeX'," ++ dq ++ py " +" ++ nl ++
py "        " ++ dq ++ py "    }, " ++ dq ++ py " +" ++ nl ++
py "        " ++ dq ++ py "    'HTML-CSS': { " ++ dq ++ py " +" ++ nl ++
py "        " ++ dq ++ py " linebreaks: { automatic: true, width: '95% container' }, " ++ dq ++ py " +" ++ nl ++
py "        " ++ dq ++ py "        styles: { '.MathJax_Display, .MathJax .mo, .MathJax .mi, .MathJax .mn': {color: 'black ! important'} }" ++ dq ++ py " +" ++ nl ++
py "        " ++ dq ++ py "    } " ++ dq ++ py " +" ++ nl ++
py "        " ++ dq ++ py "}); " ++ dq ++ py ";" ++ nl ++
py "    (document.body || document.getElementsByTagName('head')[0]).appendChild(mathjaxscript);" ++ nl ++
py "}" ++ nl ++
py "</script>" ++ nl.

Definition style_tag (styles : str) : str :=
  py "<style type=" ++ dq ++ py "text/css" ++ dq ++ py ">" ++ styles ++ py "</style>".

Definition notebook_marker : str :=
  py "/*!" ++ nl ++ py "*" ++ nl ++ py "* IPython notebook" ++ nl ++ py "*" ++ nl ++ py "*/".

Definition webapp_marker : str :=
  py "/*!" ++ nl ++ py "*" ++ nl ++ py "* IPython notebook webapp" ++ nl ++ py "*" ++ nl ++ py "*/".

(** Length of the longest prefix of [s] made of characters in [f]: what
    a greedy [f*] takes. *)
Fixpoint run_length (f : char -> bool) (s : str) : nat :=
  match s with
  | c :: s' => if f c then S (run_length f s') else O
  | [] => O
  end.

(** The rest of [s] after the literal [p], if [s] starts with it. *)
Definition after_literal (p s : str) : option str :=
  if startswith p s then Some (drop (List.length p) s) else None.

Definition is_zero (c : char) : bool := c =? 0x30.

(** [color\:\#0+(;)?] anchored at the head of [s].  Both quantifiers
    are greedy and what follows each cannot begin inside its run, so
    the longest run is the match. *)
Definition match_color (s : str) : option nat :=
  match after_literal (py "color:#") s with
  | None => None
  | Some r =>
    match run_length is_zero r with
    | O => None
    | S z =>
      let semi := match drop (S z) r with
                  | c :: _ => if c =? 0x3B then 1%nat else 0%nat
                  | [] => 0%nat
                  end in
      Some (List.length (py "color:#") + S z + semi)%nat
    end
  end.

(** [[a-z0-9,._ ]] *)
Definition selector_char (c : char) : bool :=
  in_range "a" "z" c || in_range "0" "9" c || one_of ",._ " c.

(** [[a-z0-9:;%.#\-\s\n]] *)
Definition declaration_char (c : char) : bool :=
  in_range "a" "z" c || in_range "0" "9" c || one_of ":;%.#-" c ||
  is_space c || (c =? 10).

(** [\.rendered_html[a-z0-9,._ ]*\{[a-z0-9:;%.#\-\s\n]+\}] anchored at
    the head of [s].  Neither brace belongs to the class before it, so a
    shorter run can never be followed by the brace: the longest run is
    the only candidate. *)
Definition match_rendered (s : str) : option nat :=
  match after_literal (py ".rendered_html") s with
  | None => None
  | Some r =>
    let n1 := run_length selector_char r in
    match drop n1 r with
    | c :: r1 =>
      if c =? 0x7B then
        match run_length declaration_char r1 with
        | O => None
        | S n2 =>
          match drop (S n2) r1 with
          | d :: _ =>
            if d =? 0x7D
            then Some (List.length (py ".rendered_html") + n1 + 1 + S n2 + 1)%nat
            else None
          | [] => None
          end
        end
      else None
    | [] => None
    end
  end.

Definition sub_color (style : str) : str := re_delete match_color 0 style.
Definition sub_rendered (style : str) : str := re_delete match_rendered 0 style.

(** The two [find]/slice steps at the head of [filter_css]. *)
Definition trim_markers (style : str) : str :=
  let index := find notebook_marker style in
  let style := if (0 <? index)%Z then drop (Z.to_nat index) style else style in
  let index := find webapp_marker style in
  let style := if (0 <? index)%Z then take (Z.to_nat index) style else style in
  style.

Definition filter_css (style : str) : str :=
  let style := trim_markers style in
  let style := sub_color style in
  let style := sub_rendered style in
  style_tag style.

(** [info['inlining']['css']] *)
Definition inlining_css (info : gmap string (gmap string (list str)))
  : result (list str) :=
  match info !! "inlining"%string with
  | None => Raise (KeyError "inlining")
  | Some inlining =>
    match inlining !! "css"%string with
    | None => Raise (KeyError "css")
    | Some css => Ok css
    end
  end.

Definition parse_css (content : str) (info : gmap string (gmap string (list str)))
           (fix_css ignore_css : bool) : result str :=
  if ignore_css then
    Ok (content ++ LATEX_CUSTOM_SCRIPT)
  else
    css ← inlining_css info;
    let jupyter_css :=
      if fix_css then join nl (map filter_css css)
      else join nl (map style_tag css) in
    Ok (jupyter_css ++ content ++ LATEX_CUSTOM_SCRIPT).

End Css.

(** ** Cell slicer: [SubCell.preprocess] *)

Module Slicer.

Inductive cell_type : Type := code | markdown | raw.

Record cell : Type := {
  cell_kind : cell_type;
  source : str;
  cell_metadata : list (str * str)
}.

Record notebook : Type := {
  cells : list cell;
  metadata : list (str * str);
  nbformat : Z;
  nbformat_minor : Z
}.

(** Notebooks are objects: a variable holds a reference into the heap.
    A stored notebook is a whole tree (cells included), so storing a
    second copy of the value under a fresh reference is a deep copy. *)
Definition loc := positive.

Definition deepcopy (h : gmap loc notebook) (nb : loc)
  : option (gmap loc notebook * loc) :=
  n ← h !! nb;
  let nbc := fresh (dom h) in
  Some (<[nbc := n]> h, nbc).

(** A bound of [l[start:stop]] (step 1) on a sequence of length [len]:
    an absent bound is the default, a negative one counts from the end,
    and the result is clamped to [0 .. len]. *)
Definition slice_bound (len : Z) (i : option Z) (default : Z) : Z :=
  match i with
  | None => default
  | Some i => if (i <? 0)%Z then Z.max 0 (i + len) else Z.min i len
  end.

Definition slice_lo {A : Type} (start : option Z) (l : list A) : Z :=
  slice_bound (Z.of_nat (List.length l)) start 0.

Definition slice_hi {A : Type} (stop : option Z) (l : list A) : Z :=
  slice_bound (Z.of_nat (List.length l)) stop (Z.of_nat (List.length l)).

(** [l[start:stop]] *)
Definition py_slice {A : Type} (start stop : option Z) (l : list A) : list A :=
  let lo := slice_lo start l in
  let hi := slice_hi stop l in
  take (Z.to_nat (hi - lo)) (drop (Z.to_nat lo) l).

(** The two traits of [SubCell]; [SliceIndex] admits [None] and
    integers. *)
Record SubCell : Type := {
  start : option Z;
  end_ : option Z
}.

Definition set_cells (n : notebook) (cs : list cell) : notebook :=
  {| cells := cs; metadata := metadata n;
     nbformat := nbformat n; nbformat_minor := nbformat_minor n |}.

(** [None] only for a dangling reference, which Python does not have. *)
Definition preprocess {R : Type} (self : SubCell) (h : gmap loc notebook)
           (nb : loc) (resources : R)
  : option (gmap loc notebook * (loc * R)) :=
  '(h, nbc) ← deepcopy h nb;
  n ← h !! nbc;
  let h := <[nbc := set_cells n (py_slice (start self) (end_ self) (cells n))]> h in
  Some (h, (nbc, resources)).

End Slicer.

(** ** Template expander: the markdown-cell loop of [get_html_from_filepath] *)

Module Expander.

  (** What the loop reads of one [div.text_cell_render] node [i] of the
      parsed document. *)
Record text_cell : Type := {
  children_text : list str;  (* [c.text for c in i.findChildren()] *)
  li_text : list str;        (* [e.text for e in i.findAll('li')] *)
  has_p : bool;              (* [i.find('p') is not None] *)
  has_ul : bool              (* [i.find('ul') is not None] *)
}.

(** What the loop does to the node: nothing, or the first [p] and [ul]
    are extracted and the parsed [html_str] is appended. *)
Inductive cell_out : Type :=
| Unchanged
| Expanded (html_str : str).

(** The locals of the function that keep their value from one cell to
    the next and are read by a later one. *)
Record locals : Type := {
  mp4_options : str;
  video_id : option str
}.

Definition template_settings : list (str * list str) :=
  [ (py "!article", [py "article_title"; py "article_link"; py "image_filename"]);
    (py "!quote", [py "quote_text"; py "author_into"]);
    (py "!mp4", [py "mp4_file"; py "image_file"; py "description"]);
    (py "!image", [py "image_file"; py "description"; py "source_link"; py "source_name"]);
    (py "!youtube", [py "video_id"; py "description"; py "start"; py "end"]) ].

(** [k in template_settings] *)
Definition in_template_settings (k : str) : bool :=
  existsb (fun kv => str_eqb k (fst kv)) template_settings.

(** *** The loop over the list items (lines 181-199) *)

Record scanned : Type := {
  style_str : str;
  options : str;
  values : list str
}.

Definition scan_li (keyword : str) (acc : scanned) (text : str) : scanned :=
  if str_eqb text (py "dark") then
    {| style_str := style_str acc ++ py "mix-blend-mode: initial;";
       options := options acc; values := values acc |}
  else if startswith (py "style:") text then
    let text := replace (py "style:") ([]) text in
    {| style_str := style_str acc ++ text;
       options := options acc; values := values acc |}
  else if str_eqb keyword (py "!mp4") && contains (py "options:") text then
    let o := options acc in
    let o := if contains (py "no-loop") (replace (py "_") (py "-") text)
             then replace (py "loop ") ([]) o else o in
    let o := if contains (py "no-autoplay") (replace (py "_") (py "-") text)
             then replace (py "autoplay ") ([]) o else o in
    let o := if contains (py "controls") text
             then o ++ py " controls" else o in
    {| style_str := style_str acc; options := o; values := values acc |}
  else
    {| style_str := style_str acc; options := options acc;
       values := values acc ++ [text] |}.

Definition scan_lis (keyword : str) (mp4_options : str) (lis : list str) : scanned :=
  fold_left (scan_li keyword) lis
            {| style_str := []; options := mp4_options; values := [] |}.

(** *** The templates *)

(** lines 211-221 *)
Definition article_html (anchor_link link title image_filename style_str : str) : str :=
  nl ++
  py "                <h2 id=" ++ dq ++ anchor_link ++ dq ++ py ">" ++ nl ++
  py "                    <a href=" ++ dq ++ link ++ dq ++ py " target=" ++ dq ++ py "_blank" ++ dq ++ py ">" ++ title ++ py "</a><a class=" ++ dq ++ py "anchor-link" ++ dq ++ py " href=" ++ dq ++ py "#" ++ anchor_link ++ dq ++ py ">¶</a>" ++ nl ++
  py "                </h2>" ++ nl ++
  py "                <center>" ++ nl ++
  py "                    <a href=" ++ dq ++ link ++ dq ++ py " target=" ++ dq ++ py "_blank" ++ dq ++ py ">" ++ nl ++
  py "                        <img src=" ++ dq ++ py "{filename}images/digests/" ++ image_filename ++ dq ++ py " " ++ style_str ++ py ">" ++ nl ++
  py "                    </a>" ++ nl ++
  py "                    <br>" ++ nl ++
  py "                </center>" ++ nl ++
  py "                ".

(** lines 226-228 *)
Definition quote_author_intro (author_intro : str) : str :=
  nl ++
  py "                    <span style=" ++ dq ++ py "float:right;margin-right: 1.5rem" ++ dq ++ py ">─ " ++ author_intro ++ py "</span>" ++ nl ++
  py "                    ".

(** lines 229-238 *)
Definition quote_html (quote author_intro : str) : str :=
  nl ++
  py "                <blockquote>" ++ nl ++
  py "                    <p>" ++ nl ++
  py "                        " ++ quote ++ nl ++
  py "                        <br>" ++ nl ++
  py "                        " ++ author_intro ++ nl ++
  py "                        <br>" ++ nl ++
  py "                    </p>" ++ nl ++
  py "                </blockquote>" ++ nl ++
  py "                ".

(** lines 262-264 *)
Definition mp4_source_str (source_link : str) : str :=
  nl ++
  py "                        （<a href=" ++ dq ++ source_link ++ dq ++ py " target=" ++ dq ++ py "_blank" ++ dq ++ py ">圖片來源</a>）" ++ nl ++
  py "                        ".

(** lines 266-272 *)
Definition mp4_description (description source_str : str) : str :=
  nl ++
  py "                    <center>" ++ nl ++
  py "                        " ++ description ++ source_str ++ nl ++
  py "                        <br/>" ++ nl ++
  py "                        <br/>" ++ nl ++
  py "                    </center>" ++ nl ++
  py "                    ".

(** lines 276-282 *)
Definition mp4_html (mp4_options mp4_file image_file class_str style_str description : str) : str :=
  nl ++
  py "                <video " ++ mp4_options ++ py " poster=" ++ dq ++ py "{filename}" ++ image_file ++ dq ++ py " " ++ class_str ++ py " " ++ style_str ++ py "> " ++ nl ++
  py "                  <source src=" ++ dq ++ py "{filename}" ++ mp4_file ++ dq ++ py " type=" ++ dq ++ py "video/mp4" ++ dq ++ py ">" ++ nl ++
  py "                    您的瀏覽器不支援影片標籤，請留言通知我：S" ++ nl ++
  py "                </video>" ++ nl ++
  py "                " ++ description ++ nl ++
  py "                ".

(** lines 286-289 *)
Definition image_html (class_str style_str image_file : str) : str :=
  nl ++
  py "                    <img " ++ class_str ++ py " " ++ style_str ++ py " src=" ++ dq ++ py "{filename}images/" ++ image_file ++ dq ++ py "/>" ++ nl ++
  py "                    <br>" ++ nl ++
  py "                    ".

(** lines 295-297 *)
Definition image_source_link (source_link : str) : str :=
  nl ++
  py "                        （<a href=" ++ dq ++ source_link ++ dq ++ py " target=" ++ dq ++ py "_blank" ++ dq ++ py ">圖片來源</a>）" ++ nl ++
  py "                        ".

(** lines 300-302 *)
Definition image_source_name (source_link source_name : str) : str :=
  nl ++
  py "                        （圖片來源：<a href=" ++ dq ++ source_link ++ dq ++ py " target=" ++ dq ++ py "_blank" ++ dq ++ py ">" ++ source_name ++ py "</a>）" ++ nl ++
  py "                        ".

(** lines 304-313 *)
Definition image_caption_html (class_str style_str image_file description source_str : str) : str :=
  nl ++
  py "                    <center>" ++ nl ++
  py "                        <img " ++ class_str ++ py " " ++ style_str ++ py " src=" ++ dq ++ py "{filename}/images/" ++ image_file ++ dq ++ py ">" ++ nl ++
  py "                    </center>" ++ nl ++
  py "                    <center>" ++ nl ++
  py "                        " ++ description ++ source_str ++ nl ++
  py "                        <br>" ++ nl ++
  py "                        <br>" ++ nl ++
  py "                    </center>" ++ nl ++
  py "                    ".

(** lines 329-335 *)
Definition youtube_description (description : str) : str :=
  nl ++
  py "                    <center>" ++ nl ++
  py "                        " ++ description ++ nl ++
  py "                        <br/>" ++ nl ++
  py "                        <br/>" ++ nl ++
  py "                    </center>" ++ nl ++
  py "                    ".

(** lines 339-349 *)
Definition youtube_html (video_id period_str description : str) : str :=
  nl ++
  py "                <div class=" ++ dq ++ py "resp-container" ++ dq ++ py ">" ++ nl ++
  py "                    <iframe class=" ++ dq ++ py "resp-iframe" ++ dq ++ py " " ++ nl ++
  py "                            src=" ++ dq ++ py "https://www.youtube-nocookie.com/embed/" ++ video_id ++ period_str ++ dq ++ py " " ++ nl ++
  py "                            frameborder=" ++ dq ++ py "0" ++ dq ++ py " " ++ nl ++
  py "                            allow=" ++ dq ++ py "accelerometer; " ++ nl ++
  py "                            autoplay; encrypted-media; gyroscope; picture-in-picture" ++ dq ++ py " allowfullscreen>" ++ nl ++
  py "                    </iframe>" ++ nl ++
  py "                </div>" ++ nl ++
  py "                " ++ description ++ nl ++
  py "                ".

(** *** The branches (lines 206-349) *)

Section Branches.

  (** [str.lower], which belongs to the interpreter's Unicode tables. *)
Variable lower : str -> str.

Definition article (values : list str) (style_str : str) : result str :=
  match values with
  | [title; link; image_filename] =>
    let anchor_link :=
      replace (py " ") (py "-")
              (replace (py "　") (py " ")
                       (replace (py " ") (py " ") title)) in
    Ok (article_html anchor_link link title image_filename style_str)
  | _ => Raise ValueError
  end.

Definition quote (values : list str) : result str :=
  author_intro ←
    (if (1 <? List.length values)%nat
     then v1 ← getitem values 1; Ok (quote_author_intro v1)
     else Ok []);
  v0 ← getitem values 0;
  Ok (quote_html v0 author_intro).

Definition is_image_name (v : str) : bool :=
  contains (py ".jpg") v || contains (py ".png") v ||
  contains (py ".svg") v || contains (py ".jpeg") v.

(** Body of [for v in values] (lines 245-251) on the triple
    [(mp4_file, image_file, description)]. *)
Definition mp4_sort (slots : str * str * str) (v : str) : str * str * str :=
  let '(mp4_file, image_file, description) := slots in
  let v := lower v in
  if contains (py ".mp4") v then (v, image_file, description)
  else if is_image_name v then (mp4_file, v, description)
  else (mp4_file, image_file, v).

Definition no_mp4_file : str := py "沒有對應的 mp4 檔案！".
Definition no_url : str := py "沒有對應的網址！".

(** Lines 240-258: [(mp4_file, image_file, description, source_link)]. *)
Definition mp4_arguments (values : list str) : result (str * str * str * str) :=
  match values with
  | [v] => Ok (v, [], [], [])
  | [_; _] =>
    let '(mp4_file, image_file, description) :=
      fold_left mp4_sort values ([], [], []) in
    Ok (mp4_file, image_file, description, [])
  | [mp4_file; image_file; description] =>
    if contains (py ".mp4") mp4_file
    then Ok (mp4_file, image_file, description, [])
    else Raise (AssertionError no_mp4_file)
  | [mp4_file; image_file; description; source_link] =>
    if contains (py ".mp4") mp4_file then
      if contains (py "http") source_link
      then Ok (mp4_file, image_file, description, source_link)
      else Raise (AssertionError no_url)
    else Raise (AssertionError no_mp4_file)
  | _ => Ok ([], [], [], [])
  end.

Definition mp4 (values : list str) (mp4_options class_str style_str : str)
  : result str :=
  '(mp4_file, image_file, description, source_link) ← mp4_arguments values;
  let source_str := [] in
  let description :=
    if truthy description then
      let source_str :=
        if truthy source_link then mp4_source_str source_link else source_str in
      mp4_description description source_str
    else py "<br>" in
  Ok (mp4_html mp4_options mp4_file image_file class_str style_str description).

Definition image (values : list str) (class_str style_str : str) : result str :=
  if (List.length values =? 1)%nat then
    v0 ← getitem values 0;
    Ok (image_html class_str style_str v0)
  else
    description ← getitem values 1;
    source_str ←
      (if (List.length values =? 3)%nat then
         source_link ← getitem values 2;
         Ok (image_source_link source_link)
       else if (List.length values =? 4)%nat then
         match drop 2 values with
         | [source_link; source_name] =>
           Ok (image_source_name source_link source_name)
         | _ => Raise ValueError
         end
       else Ok []);
    v0 ← getitem values 0;
    Ok (image_caption_html class_str style_str v0 description source_str).

(** [video_id] is assigned only for one to four values; otherwise the
    value a previous cell left is read. *)
Definition youtube (values : list str) (video_id : option str)
  : result (str * option str) :=
  let '(video_id, description, period_str) :=
    match values with
    | [v] => (Some v, [], [])
    | [v; description] => (Some v, description, [])
    | [v; description; start] =>
      (Some v, description, py "?start=" ++ start)
    | [v; description; start; end_] =>
      (Some v, description, py "?start=" ++ start ++ py "&end=" ++ end_)
    | _ => (video_id, [], [])
    end in
  let description :=
    if truthy description then youtube_description description
    else py "<br>" in
  match video_id with
  | Some v => Ok (youtube_html v period_str description, video_id)
  | None => Raise UnboundLocalError
  end.

(** The [if keyword == ...] chain: the generated [html_str]. *)
Definition template (keyword : str) (values : list str)
           (class_str style_str : str) (loc : locals) : result (str * locals) :=
  let html_str := [] in
  if str_eqb keyword (py "!article") then
    html_str ← article values style_str; Ok (html_str, loc)
  else if str_eqb keyword (py "!quote") then
    html_str ← quote values; Ok (html_str, loc)
  else if str_eqb keyword (py "!mp4") then
    html_str ← mp4 values (mp4_options loc) class_str style_str;
    Ok (html_str, loc)
  else if str_eqb keyword (py "!image") then
    html_str ← image values class_str style_str; Ok (html_str, loc)
  else if str_eqb keyword (py "!youtube") then
    '(html_str, v) ← youtube values (video_id loc);
    Ok (html_str, {| mp4_options := mp4_options loc; video_id := v |})
  else Ok (html_str, loc).

(** One turn of [for i in soup.findAll('div', {'class': 'text_cell_render'})]
    (lines 166-358). *)
Definition expand_cell (loc : locals) (i : text_cell)
  : result (locals * cell_out) :=
  let class_str : str := [] in
  match children_text i with
  | keyword :: _ =>
    if in_template_settings keyword then
      let sc := scan_lis keyword (mp4_options loc) (li_text i) in
      let loc := {| mp4_options := options sc; video_id := video_id loc |} in
      let style_str :=
        if truthy (style_str sc)
        then py "style=" ++ dq ++ style_str sc ++ dq else [] in
      let class_str :=
        if truthy class_str
        then py "class=" ++ dq ++ class_str ++ dq else [] in
      match values sc with
      | [] => Ok (loc, Unchanged)
      | _ :: _ =>
        '(html_str, loc) ← template keyword (values sc) class_str style_str loc;
        if has_p i then
          if has_ul i then Ok (loc, Expanded html_str)
          else Raise AttributeError
        else Raise AttributeError
      end
    else Ok (loc, Unchanged)
  | [] => Ok (loc, Unchanged)
  end.

(** The loop, from the locals [loc]. *)
Fixpoint expand_cells (loc : locals) (cs : list text_cell)
  : result (locals * list cell_out) :=
  match cs with
  | [] => Ok (loc, [])
  | i :: cs' =>
    '(loc, o) ← expand_cell loc i;
    '(loc, os) ← expand_cells loc cs';
    Ok (loc, o :: os)
  end.

(** Line 164: the locals as they are when the loop is entered. *)
Definition initial_locals : locals :=
  {| mp4_options := py "loop autoplay muted playsinline"; video_id := None |}.

(** Lines 164-358 of one call of [get_html_from_filepath]. *)
Definition expand_document (cs : list text_cell) : result (list cell_out) :=
  '(_, os) ← expand_cells initial_locals cs;
  Ok os.

End Branches.

End Expander.

(** ** Highlighter adapter: [custom_highlighter] *)

Module Highlighter.

Section Pygments.

(** What the function takes from pygments and nbconvert: the formatter
    made by [HtmlFormatter(cssclass=...)] and the highlighting call. *)
Variable formatter : Type.
Variable HtmlFormatter : str -> formatter.
Variable cell_metadata : Type.
Variable _pygments_highlight :
  str -> formatter -> str -> option cell_metadata -> str.

(** [language] is [None] when the caller passes [None]; left out, it is
    ['python']. *)
Definition custom_highlighter (source : str) (language : option str)
           (metadata : option cell_metadata) : str :=
  let language :=
    match language with
    | Some (c :: l) => c :: l
    | Some [] | None => py "python"
    end in
  let formatter := HtmlFormatter (py "highlight-ipynb") in
  let output := _pygments_highlight source formatter language metadata in
  let output :=
    replace (py "<pre>") (py "<pre class=" ++ dq ++ py "ipynb" ++ dq ++ py ">")
            output in
  output.

End Pygments.

End Highlighter.

(** ** The text of a [#blockquote] cell (lines 136-143) *)

Module Blockquote.

(** A child of the [pre] node, by what the loop does with it: [e.text]
    gives a text, or it raises [AttributeError] and [e] is used as the
    string it is. *)
Inductive content : Type :=
| with_text (text : str)
| without_text (e : str).

(** Body of [for e in pre.contents[2:]]. *)
Definition add_text (raw_text : str) (e : content) : str :=
  match e with
  | with_text text => raw_text ++ text
  | without_text e =>
    if str_eqb (replace (py " ") (py " ") (replace (py "　") (py " ") e)) (py " ")
    then raw_text ++ e
    else raw_text
  end.

Definition raw_text (contents : list content) : str :=
  fold_left add_text (drop 2 contents) [].

End Blockquote.

(** ** Notions used in the statements *)

(** The text without its white space. *)
Definition squeeze (s : str) : str := List.filter (fun c => negb (is_space c)) s.

(** The address an [iframe] is given. *)
Definition iframe_src (video_id period_str : str) : str :=
  py "https://www.youtube-nocookie.com/embed/" ++ video_id ++ period_str.

(** What the anchor of an article does to a character of the title. *)
Definition hyphenate (c : char) : char :=
  if c =? 0x20 then 0x2D else if c =? 0x3000 then 0x2D else c.

(** The option strings of [video]: [loop ] or not, [autoplay ] or not,
    the two fixed options, and [ controls] a number of times. *)
Definition option_string (l a : bool) (n : nat) : str :=
  (if l then py "loop " else []) ++ (if a then py "autoplay " else []) ++
  py "muted playsinline" ++ concat (replicate n (py " controls")).

(** The roles the two-value loop of [!mp4] gives out. *)
Inductive mp4_role : Type := Video | Poster | Caption.

Definition role_of (lower : str -> str) (v : str) : mp4_role :=
  if contains (py ".mp4") (lower v) then Video
  else if Expander.is_image_name (lower v) then Poster
  else Caption.

Definition slot (r : mp4_role) (a : str * str * str * str) : str :=
  match r, a with
  | Video, (mp4_file, _, _, _) => mp4_file
  | Poster, (_, image_file, _, _) => image_file
  | Caption, (_, _, description, _) => description
  end.

(** The five keywords. *)
Definition keywords : list str :=
  [py "!article"; py "!quote"; py "!mp4"; py "!image"; py "!youtube"].

(** What the [#blockquote] loop keeps of a child of [pre]. *)
Definition kept_text (e : Blockquote.content) : str :=
  match e with
  | Blockquote.with_text text => text
  | Blockquote.without_text e =>
    if str_eqb e [0x20] || str_eqb e [0x3000] then e else []
  end.

(** The two texts of the replacement of [custom_highlighter], decoded. *)
Definition bare_pre : str := Eval vm_compute in py "<pre>".
Definition classed_pre : str :=
  Eval vm_compute in py "<pre class=" ++ dq ++ py "ipynb" ++ dq ++ py ">".



(** ** Inputs the statements are tried on *)

(** A rendered markdown cell that is a paragraph with [keyword] followed
    by a bullet list of [items]: the elements under it are the [p], the
    [ul] and the [li]s. *)
Definition markdown_cell (keyword : string) (items : list string) : Expander.text_cell :=
  {| Expander.children_text :=
       py keyword :: (nl ++ join nl (map py items) ++ nl) :: map py items;
     Expander.li_text := map py items;
     Expander.has_p := true;
     Expander.has_ul := true |}.

Definition three_cells : Slicer.notebook :=
  {| Slicer.cells :=
       [ {| Slicer.cell_kind := Slicer.markdown; Slicer.source := py "# title";
            Slicer.cell_metadata := [] |};
         {| Slicer.cell_kind := Slicer.code; Slicer.source := py "x = 1";
            Slicer.cell_metadata := [] |};
         {| Slicer.cell_kind := Slicer.code; Slicer.source := py "x + 1";
            Slicer.cell_metadata := [] |} ];
     Slicer.metadata := []; Slicer.nbformat := 4; Slicer.nbformat_minor := 2 |}.

Definition one_notebook : gmap Slicer.loc Slicer.notebook :=
  {[ 1%positive := three_cells ]}.

Definition info_of (css : list str) : gmap string (gmap string (list str)) :=
  {[ "inlining"%string := {[ "css"%string := css ]} ]}.

(** * Facts about strings *)

Import Slicer Css Expander.

Section StrFacts.

Implicit Types (p s a b : str) (c : char).

Lemma startswith_nil_l s : startswith [] s = true.
Proof. by destruct s. Qed.

Lemma startswith_refl p : startswith p p = true.
Proof. induction p as [|c p IH]; [done|]. simpl. by rewrite N.eqb_refl. Qed.

Lemma startswith_app p a s :
  startswith (a ++ p) (a ++ s) = startswith p s.
Proof.
  induction a as [|c a IH]; [done|]. simpl. by rewrite N.eqb_refl.
Qed.

Lemma startswith_app_self p s : startswith p (p ++ s) = true.
Proof.
  rewrite <- (app_nil_r p) at 1. rewrite startswith_app.
  apply startswith_nil_l.
Qed.

Lemma startswith_spec p s :
  startswith p s = true ↔ ∃ r, s = p ++ r.
Proof.
  split.
  - revert s. induction p as [|c p IH]; intros s H; [by exists s|].
    destruct s as [|d s]; [done|]. simpl in H.
    apply andb_true_iff in H as [Hc Hp]. apply N.eqb_eq in Hc as ->.
    destruct (IH _ Hp) as [r ->]. by exists r.
  - intros [r ->]. apply startswith_app_self.
Qed.

Lemma str_eqb_eq a b : str_eqb a b = true ↔ a = b.
Proof.
  revert b. induction a as [|x a IH]; intros [|y b]; simpl; try done.
  rewrite andb_true_iff, N.eqb_eq, IH. split; [by intros [-> ->]|].
  intros [= -> ->]. done.
Qed.

Lemma str_eqb_refl a : str_eqb a a = true.
Proof. by apply str_eqb_eq. Qed.

Lemma contains_prefix p s : startswith p s = true → contains p s = true.
Proof. intros H. destruct s; simpl in *; by rewrite H. Qed.

Lemma contains_app_r p a s : contains p s = true → contains p (a ++ s) = true.
Proof.
  intros H. induction a as [|c a IH]; [done|].
  simpl. rewrite IH. apply orb_true_r.
Qed.

Lemma contains_spec p s :
  contains p s = true ↔ ∃ a b, s = a ++ p ++ b.
Proof.
  split.
  - induction s as [|c s IH]; simpl; intros H.
    + rewrite orb_false_r in H. apply startswith_spec in H as [r ->].
      by exists [], r.
    + apply orb_true_iff in H as [H|H].
      * apply startswith_spec in H as [r ->]. by exists [], r.
      * destruct (IH H) as (a & b & ->). by exists (c :: a), b.
  - intros (a & b & ->). apply contains_app_r, contains_prefix,
      startswith_app_self.
Qed.

(** A pattern that occurs in [s] is made of characters of [s]. *)
Lemma contains_chars p s c : contains p s = true → c ∈ p → c ∈ s.
Proof.
  intros (a & b & ->)%contains_spec Hc.
  rewrite !elem_of_app. auto.
Qed.

Lemma contains_without c p s : c ∈ p → c ∉ s → contains p s = false.
Proof.
  intros Hp Hs. apply not_true_is_false. intros H. apply Hs.
  by apply (contains_chars p).
Qed.

Lemma not_elem_of_existsb c p : existsb (N.eqb c) p = false → c ∉ p.
Proof.
  intros H Hc. apply list_elem_of_In in Hc.
  assert (existsb (N.eqb c) p = true); [|congruence].
  apply existsb_exists. exists c. by rewrite N.eqb_refl.
Qed.

Lemma elem_of_existsb c p : existsb (N.eqb c) p = true → c ∈ p.
Proof.
  intros (x & Hx & ->%N.eqb_eq)%existsb_exists. by apply list_elem_of_In.
Qed.

(** If [c] is not in [p], an occurrence of [p] cannot run over a [c]. *)
Lemma startswith_fresh p a c s :
  c ∉ p → startswith p (a ++ c :: s) = startswith p a.
Proof.
  revert a. induction p as [|x p IH]; intros a Hc; [by destruct a|].
  apply not_elem_of_cons in Hc as [Hx Hp].
  destruct a as [|y a]; simpl.
  - apply andb_false_iff. left. apply N.eqb_neq. congruence.
  - by rewrite IH.
Qed.

(** A pattern whose first character does not come back in it cannot
    begin before an occurrence and run into it. *)
Lemma startswith_no_overlap c p a s :
  c ∉ p → a ≠ [] →
  startswith (c :: p) (a ++ c :: s) = startswith (c :: p) a.
Proof.
  intros Hc Ha. destruct a as [|y a]; [done|].
  simpl. by rewrite startswith_fresh.
Qed.

Lemma occurrences_fresh p a c s :
  c ∉ p → p ≠ [] →
  occurrences p (a ++ c :: s) = (occurrences p a + occurrences p (c :: s))%nat.
Proof.
  intros Hc Hp. induction a as [|y a IH].
  - destruct p as [|x p]; [done|]. reflexivity.
  - assert (E : startswith p ((y :: a) ++ c :: s) = startswith p (y :: a))
      by by apply startswith_fresh.
    remember (c :: s) as t. simpl in *. rewrite E, IH. lia.
Qed.

(** Replacing one character by another is a map. *)
Lemma replace_char x y s :
  replace [x] [y] s = map (fun c => if c =? x then y else c) s.
Proof.
  unfold replace. induction s as [|c s IH]; [done|].
  cbn [replace_from startswith List.length Nat.sub map].
  rewrite N.eqb_sym. destruct (c =? x) eqn:E.
  - destruct s; simpl in *; by rewrite ?IH.
  - simpl. by rewrite IH.
Qed.

Lemma re_delete_skip m k s :
  re_delete m k s = re_delete m 0 (drop k s).
Proof.
  revert k. induction s as [|c s IH]; intros [|k]; try done.
  simpl. apply IH.
Qed.

(** Where there is no match, nothing is deleted. *)
Lemma re_delete_none m s :
  (∀ i, m (drop i s) = None) → re_delete m 0 s = s.
Proof.
  induction s as [|c s IH]; intros H; [done|].
  pose proof (H 0%nat) as H0. simpl in *. rewrite H0. f_equal.
  apply IH. intros i. apply (H (S i)).
Qed.

(** The text before the first match is kept, the match goes, and the
    scan resumes after it. *)
Lemma re_delete_first m a x s k :
  (∀ i, (i < List.length a)%nat → m (drop i (a ++ x ++ s)) = None) →
  m (x ++ s) = Some (S k) → List.length x = S k →
  re_delete m 0 (a ++ x ++ s) = a ++ re_delete m 0 s.
Proof.
  intros Ha Hm Hx. induction a as [|c a IH].
  - simpl. destruct x as [|c x]; [done|]. simpl in *. rewrite Hm.
    rewrite re_delete_skip. f_equal. injection Hx as <-.
    by rewrite drop_app_length.
  - pose proof (Ha 0%nat ltac:(simpl; lia)) as H0. simpl in *. rewrite H0.
    f_equal. apply IH. intros i Hi. apply (Ha (S i)). lia.
Qed.

End StrFacts.

(** [c] is not a character of a given literal. *)
Ltac not_in_literal :=
  lazymatch goal with
  | |- ?c ∉ ?p => refine (not_elem_of_existsb c p _); vm_compute; reflexivity
  | H : ?c ∈ ?p |- False =>
    refine (not_elem_of_existsb c p _ H); vm_compute; reflexivity
  end.

(** [c] is a character of a given literal. *)
Ltac in_literal :=
  lazymatch goal with
  | |- ?c ∈ ?p => refine (elem_of_existsb c p _); vm_compute; reflexivity
  end.

(** * The cell slicer *)

Section SlicerFacts.
Context {A : Type}.
Implicit Types (l : list A) (start stop : option Z).

Lemma slice_bound_range (len : Z) (i : option Z) (d : Z) :
  (0 ≤ d ≤ len)%Z → (0 ≤ slice_bound len i d ≤ len)%Z.
Proof.
  intros Hd. unfold slice_bound. destruct i as [i|]; [|done].
  destruct (Z.ltb_spec i 0); lia.
Qed.

(** The slice holds, in order, the elements at the indices from the
    lower bound (included) to the upper bound (excluded). *)
Lemma py_slice_lookup start stop l (i : nat) :
  py_slice start stop l !! i =
  if decide (slice_lo start l + Z.of_nat i < slice_hi stop l)%Z
  then l !! (Z.to_nat (slice_lo start l) + i)%nat
  else None.
Proof.
  unfold py_slice.
  pose proof (slice_bound_range (Z.of_nat (List.length l)) start 0) as Hlo.
  fold (slice_lo start l) in Hlo.
  case_decide as Hi.
  - rewrite lookup_take_lt by lia. apply lookup_drop.
  - apply lookup_take_ge. lia.
Qed.

Lemma py_slice_length start stop l :
  List.length (py_slice start stop l) =
  Z.to_nat (slice_hi stop l - slice_lo start l).
Proof.
  unfold py_slice. rewrite length_take, length_drop.
  pose proof (slice_bound_range (Z.of_nat (List.length l)) start 0) as Hlo.
  pose proof (slice_bound_range (Z.of_nat (List.length l)) stop
                                (Z.of_nat (List.length l))) as Hhi.
  fold (slice_lo start l) in Hlo. fold (slice_hi stop l) in Hhi. lia.
Qed.



End SlicerFacts.

Section Preprocess.



(** From the second cell to the last but one. *)
Example py_slice_middle :
  py_slice (Some 1%Z) (Some (-1)%Z) (cells three_cells) =
  [ {| cell_kind := code; source := py "x = 1"; cell_metadata := [] |} ].
Proof. reflexivity. Qed.

End Preprocess.

(** * The CSS finisher *)

Section CssFacts.
Implicit Types (s a : str).

Lemma script_head : LATEX_CUSTOM_SCRIPT = 10 :: drop 1 LATEX_CUSTOM_SCRIPT.
Proof. vm_compute. reflexivity. Qed.

(** What the script adds to the count of a tag that has no line break
    in it. *)
Lemma occurrences_script p content :
  10 ∉ p → p ≠ [] →
  occurrences p (content ++ LATEX_CUSTOM_SCRIPT) =
  (occurrences p content + occurrences p LATEX_CUSTOM_SCRIPT)%nat.
Proof.
  intros H10 Hp. rewrite script_head. by apply occurrences_fresh.
Qed.

Lemma not_contains_drop p s i :
  contains p s = false → startswith p (drop i s) = false.
Proof.
  revert i. induction s as [|c s IH]; intros i H.
  - rewrite drop_nil. simpl in H. by apply orb_false_iff in H as [H _].
  - simpl in H. apply orb_false_iff in H as [H1 H2].
    destruct i as [|i]; [done|]. by apply IH.
Qed.

Lemma after_literal_Some p s r :
  after_literal p s = Some r → s = p ++ r.
Proof.
  unfold after_literal. destruct (startswith p s) eqn:E; [|done].
  apply startswith_spec in E as [r' ->]. rewrite drop_app_length.
  by intros [= ->].
Qed.

(** A match of [color\:\#0+(;)?] begins with [color:#0]. *)
Lemma match_color_miss s :
  startswith (py "color:#0") s = false → match_color s = None.
Proof.
  intros H. unfold match_color.
  destruct (after_literal (py "color:#") s) as [r|] eqn:E; [|done].
  apply after_literal_Some in E as ->.
  destruct r as [|c r]; [done|]. simpl. unfold is_zero.
  destruct (c =? 48) eqn:Ec; [|done].
  apply N.eqb_eq in Ec as ->. exfalso.
  change (py "color:#0") with (py "color:#" ++ [48]) in H.
  rewrite startswith_app in H. done.
Qed.

Lemma run_length_zeros n s :
  (∀ c, head s = Some c → c ≠ 48) →
  run_length is_zero (replicate n 48 ++ s) = n.
Proof.
  intros Hs. induction n as [|n IH]; simpl; [|by rewrite IH].
  destruct s as [|c s]; [done|]. simpl. unfold is_zero.
  destruct (N.eqb_spec c 48) as [->|]; [|done]. by destruct (Hs 48).
Qed.

(** The match at a declaration: [color:#], the whole run of zeros and
    the semicolon if there is one. *)
Lemma match_color_hit n (semi : bool) s :
  (semi = false → ∀ c, head s = Some c → c ≠ 48 ∧ c ≠ 59) →
  match_color (py "color:#" ++ replicate (S n) 48 ++ (if semi then py ";" else []) ++ s) =
  Some (List.length (py "color:#" ++ replicate (S n) 48 ++ (if semi then py ";" else []))).
Proof.
  intros Hs. unfold match_color, after_literal.
  rewrite startswith_app_self, drop_app_length.
  rewrite run_length_zeros.
  2:{ destruct semi; [by intros c [= <-]|]. intros c Hc. by apply Hs. }
  rewrite drop_app_length'; [|by rewrite length_replicate].
  rewrite !length_app, length_replicate.
  change (List.length (py "color:#")) with 7%nat.
  destruct semi.
  - change (List.length (py ";")) with 1%nat.
    change (py ";" ++ s) with (59 :: s). simpl; f_equal; lia.
  - destruct s as [|c s]; simpl; [f_equal; lia|].
    destruct (N.eqb_spec c 59) as [->|]; [by destruct (Hs eq_refl 59)|].
    f_equal; lia.
Qed.

(** A fragment without [color:#0] goes through unchanged. *)
Lemma sub_color_clean s :
  contains (py "color:#0") s = false → sub_color s = s.
Proof.
  intros H. apply re_delete_none. intros i.
  by apply match_color_miss, not_contains_drop.
Qed.

(** The first declaration of a fragment is deleted, what precedes it is
    kept, and the rest is treated in the same way. *)
Lemma sub_color_first a n (semi : bool) s :
  contains (py "color:#0") a = false →
  (semi = false → ∀ c, head s = Some c → c ≠ 48 ∧ c ≠ 59) →
  sub_color (a ++ py "color:#" ++ replicate (S n) 48 ++ (if semi then py ";" else []) ++ s) =
  a ++ sub_color s.
Proof.
  intros Ha Hs. unfold sub_color.
  set (x := py "color:#" ++ replicate (S n) 48 ++ (if semi then py ";" else [])).
  assert (Hx : List.length x = S (List.length x - 1)).
  { unfold x. rewrite length_app. change (List.length (py "color:#")) with 7%nat. lia. }
  replace (a ++ py "color:#" ++ replicate (S n) 48 ++ (if semi then py ";" else []) ++ s)
    with (a ++ x ++ s) by (unfold x; by rewrite <- !app_assoc).
  apply re_delete_first with (k := (List.length x - 1)%nat); [| |done].
  - intros i Hi. apply match_color_miss.
    rewrite drop_app_le by lia.
    pose proof (not_contains_drop _ _ i Ha) as Hd.
    assert (Hne : drop i a ≠ []).
    { intros E. apply (f_equal List.length) in E.
      rewrite length_drop in E. simpl in E. lia. }
    change (py "color:#0") with (99 :: py "olor:#0") in *.
    change (x ++ s) with (99 :: drop 1 x ++ s).
    rewrite startswith_no_overlap; [done| |done]. not_in_literal.
  - rewrite <- Hx. unfold x. rewrite <- !app_assoc. by apply match_color_hit.
Qed.

(** C5.  With [ignore_css] set, [parse_css] returns the content followed
    by the MathJax script and nothing else, whatever [info] and [fix_css]
    are: it cannot fail on [info], the output has as many [<style]
    openings as the content had, and one more [<script] opening and one
    more [</script>] closing than the content had. *)
Theorem parse_css_ignore_css (content : str) (info : gmap string (gmap string (list str)))
        (fix_css : bool) :
  parse_css content info fix_css true = Ok (content ++ LATEX_CUSTOM_SCRIPT) ∧
  occurrences (py "<style") (content ++ LATEX_CUSTOM_SCRIPT) =
    occurrences (py "<style") content ∧
  occurrences (py "<script") (content ++ LATEX_CUSTOM_SCRIPT) =
    S (occurrences (py "<script") content) ∧
  occurrences (py "</script>") (content ++ LATEX_CUSTOM_SCRIPT) =
    S (occurrences (py "</script>") content).
Proof.
  split; [done|].
  rewrite !occurrences_script by (not_in_literal || done).
  change (occurrences (py "<style") LATEX_CUSTOM_SCRIPT) with 0%nat.
  change (occurrences (py "<script") LATEX_CUSTOM_SCRIPT) with 1%nat.
  change (occurrences (py "</script>") LATEX_CUSTOM_SCRIPT) with 1%nat.
  lia.
Qed.

(** C6, as the code has it.  With [fix_css] set and [ignore_css] not,
    [parse_css] returns the style tags of the filtered fragments joined
    by line breaks, then the content, then the MathJax script.  Each tag
    wraps its fragment once it is trimmed to the notebook part and the
    [color:#0...] declarations, then the [.rendered_html] blocks, are
    deleted.  Deleting the declarations leaves a fragment that has none
    unchanged, and it deletes the first declaration (with all its zeros
    and its semicolon), keeps what is before it and goes on after it. *)
Theorem parse_css_fix_css (content : str) (info : gmap string (gmap string (list str)))
        (inlining : gmap string (list str)) (css : list str) :
  info !! "inlining"%string = Some inlining →
  inlining !! "css"%string = Some css →
  parse_css content info true false =
    Ok (join nl (map filter_css css) ++ content ++ LATEX_CUSTOM_SCRIPT) ∧
  (∀ style, style ∈ css →
     filter_css style =
     py "<style type=" ++ dq ++ py "text/css" ++ dq ++ py ">" ++
        sub_rendered (sub_color (trim_markers style)) ++ py "</style>") ∧
  (∀ s, contains (py "color:#0") s = false → sub_color s = s) ∧
  (∀ a n (semi : bool) s,
     contains (py "color:#0") a = false →
     (semi = false → ∀ c, head s = Some c → c ≠ 48 ∧ c ≠ 59) →
     sub_color (a ++ py "color:#" ++ replicate (S n) 48 ++
                  (if semi then py ";" else []) ++ s) =
     a ++ sub_color s).
Proof.
  intros Hi Hc. split_and!.
  - unfold parse_css, inlining_css. by rewrite Hi, Hc.
  - done.
  - apply sub_color_clean.
  - apply sub_color_first.
Qed.

End CssFacts.

Lemma parse_css_fix_css_witness :
  parse_css (py "<p>x</p>") (info_of [py "a{color:#000;b}"; py "p{}"]) true false =
    Ok (join nl (map filter_css [py "a{color:#000;b}"; py "p{}"]) ++
        py "<p>x</p>" ++ LATEX_CUSTOM_SCRIPT) ∧
  sub_color (py "a{" ++ py "color:#" ++ replicate 3 48 ++ py ";" ++ py "b}") =
    py "a{" ++ sub_color (py "b}") ∧
  sub_color (py "b}") = py "b}".
Proof.
  destruct (parse_css_fix_css (py "<p>x</p>")
              (info_of [py "a{color:#000;b}"; py "p{}"])
              {[ "css"%string := [py "a{color:#000;b}"; py "p{}"] ]}
              [py "a{color:#000;b}"; py "p{}"] eq_refl eq_refl)
    as (H1 & _ & H3 & H4).
  split_and!.
  - exact H1.
  - apply (H4 (py "a{") 2%nat true (py "b}")); [vm_compute; reflexivity|done].
  - apply H3. vm_compute. reflexivity.
Defined.

(** C6 as stated fails twice on two fragments: the style tags are not
    put end to end but joined by a line break, and the first tag still
    holds a [color:#0] declaration, which the deletion itself put
    together. *)
Lemma parse_css_fix_css_counterexample :
  parse_css (py "x") (info_of [py "colcolor:#0or:#0"; py "p{}"]) true false =
    Ok (style_tag (py "color:#0") ++ nl ++ style_tag (py "p{}") ++ py "x" ++
        LATEX_CUSTOM_SCRIPT) ∧
  parse_css (py "x") (info_of [py "colcolor:#0or:#0"; py "p{}"]) true false ≠
    Ok (concat (map filter_css [py "colcolor:#0or:#0"; py "p{}"]) ++ py "x" ++
        LATEX_CUSTOM_SCRIPT) ∧
  filter_css (py "colcolor:#0or:#0") = style_tag (py "color:#0") ∧
  contains (py "color:#0") (filter_css (py "colcolor:#0or:#0")) = true.
Proof. vm_compute. split_and!; done. Qed.

(** * The template expander *)

Lemma startswith_app_true a p s :
  startswith p s = true → startswith (a ++ p) (a ++ s) = true.
Proof. by rewrite startswith_app. Qed.

(** The goal [startswith (x1 ++ ... ++ xn) (x1 ++ ... ++ xn ++ s) = true],
    piece by piece. *)
Ltac prefix_pieces :=
  lazymatch goal with
  | |- startswith (?x ++ ?p) (?y ++ ?s) = true =>
    constr_eq x y; apply startswith_app_true; prefix_pieces
  | |- startswith ?x (?y ++ ?s) = true =>
    constr_eq x y; apply startswith_app_self
  | |- startswith ?x ?y = true =>
    constr_eq x y; apply startswith_refl
  end.

(** The goal [contains x (a1 ++ a2 ++ ...) = true] where [x] is a run of
    the pieces on the right. *)
Ltac find_pieces :=
  first
    [ apply contains_prefix; prefix_pieces
    | lazymatch goal with
      | |- contains _ (_ ++ _) = true => apply contains_app_r; find_pieces
      end ].

Lemma squeeze_app a b : squeeze (a ++ b) = squeeze a ++ squeeze b.
Proof. apply List.filter_app. Qed.

Section ExpanderFacts.
Variable lower : str -> str.
Implicit Types (loc : locals) (i : text_cell) (q v : str).

Lemma scan_li_keeps_options kw acc text :
  str_eqb kw (py "!mp4") = false →
  options (scan_li kw acc text) = options acc.
Proof.
  intros H. unfold scan_li. rewrite H. simpl.
  by repeat case_match.
Qed.

Lemma scan_lis_keeps_options kw o lis :
  str_eqb kw (py "!mp4") = false →
  options (scan_lis kw o lis) = o.
Proof.
  intros H. unfold scan_lis.
  assert (G : ∀ acc, options (fold_left (scan_li kw) lis acc) = options acc);
    [|by rewrite G].
  induction lis as [|t lis IH]; intros acc; [done|].
  simpl. rewrite IH. by apply scan_li_keeps_options.
Qed.

(** A list item that is neither [dark], nor a style, nor an option is a
    positional value. *)
Lemma scan_li_value kw acc text :
  str_eqb text (py "dark") = false →
  startswith (py "style:") text = false →
  str_eqb kw (py "!mp4") && contains (py "options:") text = false →
  scan_li kw acc text =
  {| style_str := style_str acc; options := options acc;
     values := values acc ++ [text] |}.
Proof. intros H1 H2 H3. unfold scan_li. by rewrite H1, H2, H3. Qed.

Lemma locals_eta loc :
  {| mp4_options := mp4_options loc; video_id := video_id loc |} = loc.
Proof. by destruct loc. Qed.

(** The turn of the loop on a cell that opens with a template keyword. *)
Lemma expand_cell_keyword loc i kw kids :
  children_text i = kw :: kids →
  in_template_settings kw = true →
  expand_cell lower loc i =
  let sc := scan_lis kw (mp4_options loc) (li_text i) in
  let loc1 := {| mp4_options := options sc; video_id := video_id loc |} in
  match values sc with
  | [] => Ok (loc1, Unchanged)
  | _ :: _ =>
    '(html_str, loc2) ←
      template lower kw (values sc) []
        (if truthy (style_str sc) then py "style=" ++ dq ++ style_str sc ++ dq else [])
        loc1;
    if has_p i then
      if has_ul i then Ok (loc2, Expanded html_str) else Raise AttributeError
    else Raise AttributeError
  end.
Proof. intros Hk Hin. unfold expand_cell. by rewrite Hk, Hin. Qed.

(** An exception in a cell ends the loop. *)
Lemma expand_cells_raise loc loc1 cs1 os1 i cs2 e :
  expand_cells lower loc cs1 = Ok (loc1, os1) →
  expand_cell lower loc1 i = Raise e →
  expand_cells lower loc (cs1 ++ i :: cs2) = Raise e.
Proof.
  revert loc os1. induction cs1 as [|c cs1 IH]; intros loc os1 H1 H2.
  - injection H1 as -> <-. simpl. by rewrite H2.
  - simpl in *. destruct (expand_cell lower loc c) as [[l o]|e']; [|done].
    simpl in *.
    destruct (expand_cells lower l cs1) as [[l' os']|e'] eqn:E; [|done].
    simpl in H1. injection H1 as -> <-. by rewrite (IH _ _ E H2).
Qed.


End ExpanderFacts.
(** The keyword of the cell at hand against the literals of the chain. *)
Ltac keyword_is kw :=
  repeat match goal with
    | |- context [str_eqb (py kw) (py ?k)] =>
      let b := eval vm_compute in (str_eqb (py kw) (py k)) in
      change (str_eqb (py kw) (py k)) with b
    end;
  cbn [andb].

(** Unfold the turn of the loop on a cell whose keyword is known. *)
Ltac open_cell H :=
  rewrite (expand_cell_keyword _ _ _ _ _ H) by (vm_compute; reflexivity);
  cbn zeta.

Section QuoteArticle.
Variable lower : str -> str.
Implicit Types (loc : locals) (i : text_cell) (q v : str).

(** C2, as the code has it.  A cell that opens with [!quote] and has the
    single list item [q] (any text that is not a modifier; [Life is short]
    is one) is replaced and nothing else changes.  Leaving white space
    aside, the fragment is a [blockquote] around a [p] that holds [q] and
    then two [br] tags: the place between them, where the attribution
    would be, is empty. *)
Theorem quote_single_item loc kids q :
  str_eqb q (py "dark") = false →
  startswith (py "style:") q = false →
  ∃ html_str,
    expand_cell lower loc
      {| children_text := py "!quote" :: kids; li_text := [q];
         has_p := true; has_ul := true |} = Ok (loc, Expanded html_str) ∧
    squeeze html_str =
      py "<blockquote><p>" ++ squeeze q ++ py "<br><br></p></blockquote>".
Proof.
  intros Hd Hs. exists (quote_html q []). split.
  - erewrite expand_cell_keyword by (done || (vm_compute; reflexivity)).
    cbn [li_text scan_lis fold_left has_p has_ul].
    rewrite scan_li_value by done. cbn [values style_str options app truthy].
    unfold template. keyword_is "!quote". simpl. by rewrite locals_eta.
  - unfold quote_html. rewrite !squeeze_app. vm_compute. reflexivity.
Qed.

Lemma article_wrong_count loc i kids st o vs :
  children_text i = py "!article" :: kids →
  scan_lis (py "!article") (mp4_options loc) (li_text i) =
    {| style_str := st; options := o; values := vs |} →
  vs ≠ [] → List.length vs ≠ 3%nat →
  expand_cell lower loc i = Raise ValueError.
Proof.
  intros Hk Hsc Hne Hlen. open_cell Hk. rewrite Hsc. cbn [values style_str options].
  destruct vs as [|v1 vs]; [done|].
  unfold template. keyword_is "!article".
  by destruct vs as [|v2 [|v3 [|v4 vs]]].
Qed.

Lemma quote_extra_arguments loc i kids st o q a rest :
  children_text i = py "!quote" :: kids →
  scan_lis (py "!quote") (mp4_options loc) (li_text i) =
    {| style_str := st; options := o; values := q :: a :: rest |} →
  has_p i = true → has_ul i = true →
  expand_cell lower loc i =
    Ok (loc, Expanded (quote_html q (quote_author_intro a))).
Proof.
  intros Hk Hsc Hp Hu. open_cell Hk.
  pose proof (scan_lis_keeps_options (py "!quote") (mp4_options loc) (li_text i)
                ltac:(vm_compute; reflexivity)) as Ho.
  rewrite Hsc in *. cbn [values style_str options] in *. subst o.
  unfold template. keyword_is "!quote". simpl. by rewrite Hp, Hu, locals_eta.
Qed.

Lemma no_arguments loc i kw kids st o :
  children_text i = kw :: kids →
  kw = py "!article" ∨ kw = py "!quote" →
  scan_lis kw (mp4_options loc) (li_text i) =
    {| style_str := st; options := o; values := [] |} →
  expand_cell lower loc i = Ok (loc, Unchanged).
Proof.
  intros Hk Hkw Hsc.
  rewrite (expand_cell_keyword _ _ _ _ _ Hk)
    by (destruct Hkw as [-> | ->]; vm_compute; reflexivity).
  cbn zeta.
  pose proof (scan_lis_keeps_options kw (mp4_options loc) (li_text i)
                ltac:(destruct Hkw as [-> | ->]; vm_compute; reflexivity)) as Ho.
  rewrite Hsc in *. cbn [values style_str options] in *. subst o.
  by rewrite locals_eta.
Qed.

(** C3, as the code has it.  An [!article] cell whose number of positional
    values is neither 0 nor 3 ends the conversion with [ValueError]; a
    [!quote] cell with more than two values is expanded like the one with
    its first two values; an [!article] or [!quote] cell with no
    positional value is left as it is. *)
Theorem unsupported_counts loc i kw kids st o vs :
  children_text i = kw :: kids →
  scan_lis kw (mp4_options loc) (li_text i) =
    {| style_str := st; options := o; values := vs |} →
  (kw = py "!article" → vs ≠ [] → List.length vs ≠ 3%nat →
   expand_cell lower loc i = Raise ValueError) ∧
  (kw = py "!quote" → has_p i = true → has_ul i = true →
   ∀ q a rest, vs = q :: a :: rest →
     expand_cell lower loc i =
       Ok (loc, Expanded (quote_html q (quote_author_intro a)))) ∧
  (kw = py "!article" ∨ kw = py "!quote" → vs = [] →
   expand_cell lower loc i = Ok (loc, Unchanged)).
Proof.
  intros Hk Hsc. split_and!.
  - intros -> ??. by eapply article_wrong_count.
  - intros -> ?? q a rest ->. by eapply quote_extra_arguments.
  - intros ? ->. by eapply no_arguments.
Qed.

End QuoteArticle.

Lemma quote_single_item_witness :
  str_eqb (py "Life is short") (py "dark") = false ∧
  startswith (py "style:") (py "Life is short") = false ∧
  ∃ html_str,
    expand_cell ascii_lower initial_locals
      {| children_text := py "!quote" :: [py "Life is short"];
         li_text := [py "Life is short"];
         has_p := true; has_ul := true |} = Ok (initial_locals, Expanded html_str) ∧
    squeeze html_str =
      py "<blockquote><p>" ++ squeeze (py "Life is short") ++
      py "<br><br></p></blockquote>".
Proof.
  split; [reflexivity|]. split; [reflexivity|].
  apply (quote_single_item ascii_lower initial_locals [py "Life is short"]
                           (py "Life is short")); reflexivity.
Defined.

(** C2 as stated fails: the fragment for [Life is short] has two [<br>]. *)
Lemma quote_single_br_counterexample :
  expand_cell ascii_lower initial_locals (markdown_cell "!quote" ["Life is short"])
  = Ok (initial_locals, Expanded (quote_html (py "Life is short") [])) ∧
  occurrences (py "<br>") (quote_html (py "Life is short") []) = 2%nat ∧
  occurrences (py "<br>") (quote_html (py "Life is short") []) ≠ 1%nat ∧
  contains (py "<span") (quote_html (py "Life is short") []) = false.
Proof. vm_compute. split_and!; done. Qed.

Lemma unsupported_counts_witness :
  expand_cell ascii_lower initial_locals (markdown_cell "!article" ["t"; "l"]) =
    Raise ValueError ∧
  expand_cell ascii_lower initial_locals (markdown_cell "!quote" ["q"; "a"; "x"]) =
    Ok (initial_locals, Expanded (quote_html (py "q") (quote_author_intro (py "a")))) ∧
  expand_cell ascii_lower initial_locals (markdown_cell "!quote" ["dark"]) =
    Ok (initial_locals, Unchanged).
Proof.
  split_and!.
  - refine (proj1 (unsupported_counts ascii_lower initial_locals
                     (markdown_cell "!article" ["t"; "l"]) (py "!article") _
                     [] (py "loop autoplay muted playsinline") [py "t"; py "l"]
                     eq_refl _) eq_refl _ _).
    + vm_compute. reflexivity.
    + discriminate.
    + simpl. lia.
  - refine (proj1 (proj2 (unsupported_counts ascii_lower initial_locals
                     (markdown_cell "!quote" ["q"; "a"; "x"]) (py "!quote") _
                     [] (py "loop autoplay muted playsinline") [py "q"; py "a"; py "x"]
                     eq_refl _)) eq_refl eq_refl eq_refl _ _ _ eq_refl).
    vm_compute. reflexivity.
  - refine (proj2 (proj2 (unsupported_counts ascii_lower initial_locals
                     (markdown_cell "!quote" ["dark"]) (py "!quote") _
                     (py "mix-blend-mode: initial;") (py "loop autoplay muted playsinline") []
                     eq_refl _)) (or_intror eq_refl) eq_refl).
    vm_compute. reflexivity.
Defined.

(** C3 as stated fails: two values after [!article] raise, three values
    after [!quote] give a fragment that is not empty. *)
Lemma unsupported_counts_counterexample :
  expand_cell ascii_lower initial_locals (markdown_cell "!article" ["t"; "l"]) =
    Raise ValueError ∧
  expand_cell ascii_lower initial_locals (markdown_cell "!quote" ["q"; "a"; "x"]) =
    Ok (initial_locals, Expanded (quote_html (py "q") (quote_author_intro (py "a")))) ∧
  quote_html (py "q") (quote_author_intro (py "a")) ≠ [].
Proof. vm_compute. split_and!; done. Qed.

Section Mp4Youtube.
Variable lower : str -> str.
Implicit Types (loc : locals) (i : text_cell) (q v : str).

(** The video tag carries the option string, the poster and the source
    behind the literal [{filename}]. *)
Lemma mp4_html_attributes o m im c s d :
  contains (py "<video " ++ o ++ py " poster=" ++ dq ++ py "{filename}" ++ im ++ dq)
           (mp4_html o m im c s d) = true ∧
  contains (py "<source src=" ++ dq ++ py "{filename}" ++ m ++ dq)
           (mp4_html o m im c s d) = true.
Proof.
  unfold mp4_html.
  change (py "                <video ") with (py "                " ++ py "<video ").
  change (py "                  <source src=")
    with (py "                  " ++ py "<source src=").
  rewrite <- !app_assoc. split; find_pieces.
Qed.

Lemma mp4_valid vs o c s m im d l :
  mp4_arguments lower vs = Ok (m, im, d, l) →
  ∃ html_str,
    mp4 lower vs o c s = Ok html_str ∧
    contains (py "<video " ++ o ++ py " poster=" ++ dq ++ py "{filename}" ++ im ++ dq)
             html_str = true ∧
    contains (py "<source src=" ++ dq ++ py "{filename}" ++ m ++ dq) html_str = true.
Proof.
  intros H. unfold mp4. rewrite H. simpl. eexists. split; [done|].
  apply mp4_html_attributes.
Qed.

(** C4, as the code has it.  In a cell that opens with [!mp4]: with three
    positional values of which the first has no [.mp4], and with four of
    which the first has no [.mp4] or else the fourth has no [http], the
    cell raises [AssertionError], and so does the whole loop however many
    cells went well before it.  With three or four values that pass, the
    cell is replaced by a fragment whose [video] tag has the current
    options, the poster [{filename}] followed by the second value, and
    the source [{filename}] followed by the first. *)
Theorem mp4_assertions loc i kids st o vs :
  children_text i = py "!mp4" :: kids →
  scan_lis (py "!mp4") (mp4_options loc) (li_text i) =
    {| style_str := st; options := o; values := vs |} →
  (∀ m im d, vs = [m; im; d] → contains (py ".mp4") m = false →
     expand_cell lower loc i = Raise (AssertionError no_mp4_file)) ∧
  (∀ m im d l, vs = [m; im; d; l] → contains (py ".mp4") m = false →
     expand_cell lower loc i = Raise (AssertionError no_mp4_file)) ∧
  (∀ m im d l, vs = [m; im; d; l] → contains (py ".mp4") m = true →
     contains (py "http") l = false →
     expand_cell lower loc i = Raise (AssertionError no_url)) ∧
  (∀ e loc0 cs1 os1 cs2,
     expand_cell lower loc i = Raise e →
     expand_cells lower loc0 cs1 = Ok (loc, os1) →
     expand_cells lower loc0 (cs1 ++ i :: cs2) = Raise e) ∧
  (∀ m im d l,
     vs = [m; im; d] ∧ contains (py ".mp4") m = true ∨
     vs = [m; im; d; l] ∧ contains (py ".mp4") m = true ∧
       contains (py "http") l = true →
     has_p i = true → has_ul i = true →
     ∃ html_str,
       expand_cell lower loc i =
         Ok ({| mp4_options := o; video_id := video_id loc |}, Expanded html_str) ∧
       contains (py "<video " ++ o ++ py " poster=" ++ dq ++ py "{filename}" ++ im ++ dq)
                html_str = true ∧
       contains (py "<source src=" ++ dq ++ py "{filename}" ++ m ++ dq)
                html_str = true).
Proof.
  intros Hk Hsc. split_and!.
  - intros m im d -> Hm. open_cell Hk. rewrite Hsc. cbn [values style_str options].
    unfold template. keyword_is "!mp4". unfold mp4, mp4_arguments. by rewrite Hm.
  - intros m im d l -> Hm. open_cell Hk. rewrite Hsc. cbn [values style_str options].
    unfold template. keyword_is "!mp4". unfold mp4, mp4_arguments. by rewrite Hm.
  - intros m im d l -> Hm Hl. open_cell Hk. rewrite Hsc.
    cbn [values style_str options].
    unfold template. keyword_is "!mp4". unfold mp4, mp4_arguments.
    by rewrite Hm, Hl.
  - intros e loc0 cs1 os1 cs2 He H1. by eapply expand_cells_raise.
  - intros m im d l Hv Hp Hu. open_cell Hk. rewrite Hsc.
    cbn [values style_str options].
    assert (Ha : ∃ l', mp4_arguments lower vs = Ok (m, im, d, l') ∧ vs ≠ []).
    { destruct Hv as [[-> Hm] | (-> & Hm & Hl)]; unfold mp4_arguments.
      - exists []. by rewrite Hm.
      - exists l. by rewrite Hm, Hl. }
    destruct Ha as (l' & Ha & Hne).
    destruct (mp4_valid vs o []
                (if truthy st then py "style=" ++ dq ++ st ++ dq else [])
                m im d l' Ha) as (h & Hh & H1 & H2).
    exists h. split; [|done].
    destruct vs as [|v0 vs]; [done|].
    unfold template. keyword_is "!mp4". cbn [mp4_options].
    rewrite Hh. simpl. by rewrite Hp, Hu.
Qed.

Lemma youtube_html_src v period d :
  contains (py "src=" ++ dq ++ iframe_src v period ++ dq) (youtube_html v period d) = true.
Proof.
  unfold youtube_html, iframe_src.
  change (py "                            src=")
    with (py "                            " ++ py "src=").
  rewrite <- !app_assoc. find_pieces.
Qed.

Lemma iframe_src_no_end v s :
  38 ∉ v → 38 ∉ s →
  contains (py "&end=") (iframe_src v (py "?start=" ++ s)) = false.
Proof.
  intros Hv Hs. apply (contains_without 38); [in_literal|].
  unfold iframe_src. intros H.
  apply elem_of_app in H as [H|H]; [not_in_literal|].
  apply elem_of_app in H as [H|H]; [done|].
  apply elem_of_app in H as [H|H]; [not_in_literal|done].
Qed.

(** C7, as the code has it.  In a cell that opens with [!youtube], with
    three positional values (id, description, start) the [src] of the
    [iframe] is the embed address of the id followed by [?start=] and the
    start value, and nothing more: it has no [&end=] as long as neither
    the id nor the start value has an ampersand.  With four values
    [&end=] and the fourth value follow. *)
Theorem youtube_period loc i kids st o vs :
  children_text i = py "!youtube" :: kids →
  scan_lis (py "!youtube") (mp4_options loc) (li_text i) =
    {| style_str := st; options := o; values := vs |} →
  has_p i = true → has_ul i = true →
  (∀ v d start, vs = [v; d; start] →
     ∃ html_str,
       expand_cell lower loc i =
         Ok ({| mp4_options := mp4_options loc; video_id := Some v |},
             Expanded html_str) ∧
       contains (py "src=" ++ dq ++ iframe_src v (py "?start=" ++ start) ++ dq)
                html_str = true ∧
       contains (py "?start=" ++ start) (iframe_src v (py "?start=" ++ start)) = true ∧
       (38 ∉ v → 38 ∉ start →
        contains (py "&end=") (iframe_src v (py "?start=" ++ start)) = false)) ∧
  (∀ v d start end_, vs = [v; d; start; end_] →
     ∃ html_str,
       expand_cell lower loc i =
         Ok ({| mp4_options := mp4_options loc; video_id := Some v |},
             Expanded html_str) ∧
       contains (py "src=" ++ dq ++
                 iframe_src v (py "?start=" ++ start ++ py "&end=" ++ end_) ++ dq)
                html_str = true ∧
       contains (py "?start=" ++ start)
                (iframe_src v (py "?start=" ++ start ++ py "&end=" ++ end_)) = true ∧
       contains (py "&end=" ++ end_)
                (iframe_src v (py "?start=" ++ start ++ py "&end=" ++ end_)) = true).
Proof.
  intros Hk Hsc Hp Hu.
  pose proof (scan_lis_keeps_options (py "!youtube") (mp4_options loc) (li_text i)
                ltac:(vm_compute; reflexivity)) as Ho.
  rewrite Hsc in Ho. cbn [options] in Ho. subst o.
  split.
  - intros v d start ->. eexists. split_and!.
    + open_cell Hk. rewrite Hsc. cbn [values style_str options].
      unfold template. keyword_is "!youtube". unfold youtube.
      cbn [mbind result_bind mp4_options video_id]. by rewrite Hp, Hu.
    + apply youtube_html_src.
    + unfold iframe_src. find_pieces.
    + apply iframe_src_no_end.
  - intros v d start end_ ->. eexists. split_and!.
    + open_cell Hk. rewrite Hsc. cbn [values style_str options].
      unfold template. keyword_is "!youtube". unfold youtube.
      cbn [mbind result_bind mp4_options video_id]. by rewrite Hp, Hu.
    + apply youtube_html_src.
    + unfold iframe_src. find_pieces.
    + unfold iframe_src. find_pieces.
Qed.

  (** The anchor of an article: the title with each space and each
      ideographic space (U+3000) turned into a hyphen, and every other
      character kept. *)
Lemma article_anchor title link image_filename st :
  article [title; link; image_filename] st =
  Ok (article_html (map hyphenate title) link title image_filename st).
Proof.
  unfold article. do 2 f_equal.
  change (py " ") with [32]. change (py "-") with [45].
  change (py "　") with [12288].
  rewrite !replace_char, !map_map. apply map_ext. intros c.
  unfold hyphenate.
  destruct (N.eqb_spec c 32) as [->|H1]; [done|].
  destruct (N.eqb_spec c 12288) as [->|H2]; [done|].
  by destruct (N.eqb_spec c 32).
Qed.

(** C10, as the code has it.  With two positional values [a] and [b]
    after [!mp4], each one is given a role by what its lowercased text
    contains — [.mp4]: the video; else [.jpg], [.png], [.svg] or [.jpeg]:
    the poster; else: the description — and its lowercased text is put in
    the slot of that role.  The second value always ends in its slot;
    the first one does when its role is another one, and then the order
    of the two does not matter; a slot no value went to is empty and so
    is the source link.  With one or two values nothing is asserted: the
    fragment is always produced. *)
Theorem mp4_two_values a b :
  (∃ args,
     mp4_arguments lower [a; b] = Ok args ∧
     slot (role_of lower b) args = lower b ∧
     (role_of lower a ≠ role_of lower b →
      slot (role_of lower a) args = lower a ∧ mp4_arguments lower [b; a] = Ok args) ∧
     (role_of lower a = role_of lower b → mp4_arguments lower [a; b] = mp4_arguments lower [b; b]) ∧
     (∀ r, r ≠ role_of lower a → r ≠ role_of lower b → slot r args = []) ∧
     args.2 = []) ∧
  (∀ o c s, ∃ html_str, mp4 lower [a] o c s = Ok html_str) ∧
  (∀ o c s, ∃ html_str, mp4 lower [a; b] o c s = Ok html_str).
Proof.
  split_and!.
  - unfold mp4_arguments, role_of. cbn [fold_left]. unfold mp4_sort.
    destruct (contains (py ".mp4") (lower a)), (is_image_name (lower a)),
      (contains (py ".mp4") (lower b)), (is_image_name (lower b));
      cbn [slot fst snd];
      (eexists; split_and!; [reflexivity|reflexivity| | |intros []; done|reflexivity]);
      done.
  - intros o c s. unfold mp4, mp4_arguments. eexists. reflexivity.
  - intros o c s. unfold mp4, mp4_arguments.
    destruct (fold_left (mp4_sort lower) [a; b] ([], [], [])) as [[m im] d].
    eexists. reflexivity.
Qed.

End Mp4Youtube.

Lemma mp4_assertions_witness :
  expand_cell ascii_lower initial_locals
    (markdown_cell "!mp4" ["clip.mov"; "poster.jpg"; "caption"]) =
    Raise (AssertionError no_mp4_file) ∧
  expand_cell ascii_lower initial_locals
    (markdown_cell "!mp4" ["clip.mp4"; "poster.jpg"; "caption"; "somewhere"]) =
    Raise (AssertionError no_url) ∧
  expand_cells ascii_lower initial_locals
    ([markdown_cell "!quote" ["q"]] ++
     markdown_cell "!mp4" ["clip.mov"; "poster.jpg"; "caption"] ::
     [markdown_cell "!quote" ["r"]]) =
    Raise (AssertionError no_mp4_file) ∧
  ∃ html_str,
    expand_cell ascii_lower initial_locals
      (markdown_cell "!mp4" ["clip.mp4"; "poster.jpg"; "caption"; "options: no-loop"]) =
      Ok ({| mp4_options := py "autoplay muted playsinline";
             video_id := video_id initial_locals |},
          Expanded html_str) ∧
    contains (py "<video " ++ py "autoplay muted playsinline" ++ py " poster=" ++ dq ++
              py "{filename}" ++ py "poster.jpg" ++ dq) html_str = true ∧
    contains (py "<source src=" ++ dq ++ py "{filename}" ++ py "clip.mp4" ++ dq)
             html_str = true.
Proof.
  assert (H3 : expand_cell ascii_lower initial_locals
                 (markdown_cell "!mp4" ["clip.mov"; "poster.jpg"; "caption"]) =
               Raise (AssertionError no_mp4_file)).
  { refine (proj1 (mp4_assertions ascii_lower initial_locals
                 (markdown_cell "!mp4" ["clip.mov"; "poster.jpg"; "caption"]) _ []
                     (py "loop autoplay muted playsinline")
                     [py "clip.mov"; py "poster.jpg"; py "caption"] eq_refl _)
                  _ _ _ eq_refl _); vm_compute; reflexivity. }
  split_and!.
  - exact H3.
  - refine (proj1 (proj2 (proj2
              (mp4_assertions ascii_lower initial_locals
                 (markdown_cell "!mp4" ["clip.mp4"; "poster.jpg"; "caption"; "somewhere"]) _ []
                 (py "loop autoplay muted playsinline")
                 [py "clip.mp4"; py "poster.jpg"; py "caption"; py "somewhere"]
                 eq_refl _)))
              _ _ _ _ eq_refl _ _); vm_compute; reflexivity.
  - refine (proj1 (proj2 (proj2 (proj2
              (mp4_assertions ascii_lower initial_locals
                 (markdown_cell "!mp4" ["clip.mov"; "poster.jpg"; "caption"]) _ []
                 (py "loop autoplay muted playsinline")
                 [py "clip.mov"; py "poster.jpg"; py "caption"] eq_refl _))))
              _ initial_locals [markdown_cell "!quote" ["q"]]
              [Expanded (quote_html (py "q") [])] _ H3 _);
      vm_compute; reflexivity.
  - refine (proj2 (proj2 (proj2 (proj2
              (mp4_assertions ascii_lower initial_locals
                 (markdown_cell "!mp4" ["clip.mp4"; "poster.jpg"; "caption"; "options: no-loop"]) _ []
                 (py "autoplay muted playsinline")
                 [py "clip.mp4"; py "poster.jpg"; py "caption"] eq_refl _))))
              (py "clip.mp4") (py "poster.jpg") (py "caption") []
              (or_introl (conj eq_refl _)) eq_refl eq_refl); vm_compute; reflexivity.
Defined.

(** C4 as stated fails in its last part: the poster is not the path given
    but [{filename}] followed by it, and likewise the source. *)
Lemma mp4_attributes_counterexample :
  ∃ html_str,
    expand_cell ascii_lower initial_locals
      (markdown_cell "!mp4" ["clip.mp4"; "poster.jpg"; "caption"]) =
      Ok (initial_locals, Expanded html_str) ∧
    contains (py "poster=" ++ dq ++ py "poster.jpg" ++ dq) html_str = false ∧
    contains (py "src=" ++ dq ++ py "clip.mp4" ++ dq) html_str = false ∧
    contains (py "poster=" ++ dq ++ py "{filename}poster.jpg" ++ dq) html_str = true ∧
    contains (py "src=" ++ dq ++ py "{filename}clip.mp4" ++ dq) html_str = true.
Proof. eexists. vm_compute. split_and!; reflexivity. Qed.

Lemma youtube_period_witness :
  (∃ html_str,
     expand_cell ascii_lower initial_locals
       (markdown_cell "!youtube" ["dQw4w9WgXcQ"; "a song"; "30"]) =
       Ok ({| mp4_options := mp4_options initial_locals;
              video_id := Some (py "dQw4w9WgXcQ") |}, Expanded html_str) ∧
     contains (py "src=" ++ dq ++ iframe_src (py "dQw4w9WgXcQ") (py "?start=" ++ py "30") ++ dq)
              html_str = true ∧
     contains (py "&end=") (iframe_src (py "dQw4w9WgXcQ") (py "?start=" ++ py "30")) = false) ∧
  (∃ html_str,
     expand_cell ascii_lower initial_locals
       (markdown_cell "!youtube" ["dQw4w9WgXcQ"; "a song"; "30"; "60"]) =
       Ok ({| mp4_options := mp4_options initial_locals;
              video_id := Some (py "dQw4w9WgXcQ") |}, Expanded html_str) ∧
     contains (py "src=" ++ dq ++
               iframe_src (py "dQw4w9WgXcQ") (py "?start=" ++ py "30" ++ py "&end=" ++ py "60") ++ dq)
              html_str = true).
Proof.
  split.
  - destruct (proj1 (youtube_period ascii_lower initial_locals
                       (markdown_cell "!youtube" ["dQw4w9WgXcQ"; "a song"; "30"]) _ []
                       (py "loop autoplay muted playsinline")
                       [py "dQw4w9WgXcQ"; py "a song"; py "30"] eq_refl
                       ltac:(vm_compute; reflexivity) eq_refl eq_refl)
                    _ _ _ eq_refl) as (h & H1 & H2 & _ & H4).
    exists h. split_and!; [exact H1|exact H2|].
    apply H4; not_in_literal.
  - destruct (proj2 (youtube_period ascii_lower initial_locals
                       (markdown_cell "!youtube" ["dQw4w9WgXcQ"; "a song"; "30"; "60"]) _ []
                       (py "loop autoplay muted playsinline")
                       [py "dQw4w9WgXcQ"; py "a song"; py "30"; py "60"] eq_refl
                       ltac:(vm_compute; reflexivity) eq_refl eq_refl)
                    _ _ _ _ eq_refl) as (h & H1 & H2 & _).
    exists h. split_and!; [exact H1|exact H2].
Defined.

(** C7 as stated fails: an id with [&end=] in it gives a [src] with
    [&end=] in it, though only three values are given. *)
Lemma youtube_end_counterexample :
  ∃ html_str,
    expand_cell ascii_lower initial_locals
      (markdown_cell "!youtube" ["abc&end=9"; "a song"; "5"]) =
      Ok ({| mp4_options := mp4_options initial_locals;
             video_id := Some (py "abc&end=9") |}, Expanded html_str) ∧
    contains (py "src=" ++ dq ++ iframe_src (py "abc&end=9") (py "?start=" ++ py "5") ++ dq)
             html_str = true ∧
    contains (py "&end=") (iframe_src (py "abc&end=9") (py "?start=" ++ py "5")) = true.
Proof. eexists. vm_compute. split_and!; reflexivity. Qed.

(** C8 fails on the code: the first [replace] of the anchor has a plain
    space on both sides, so a no-break space (U+00A0) of the title stays
    in the anchor. *)
Theorem article_anchor_nbsp :
  article [py "a" ++ [0xA0] ++ py "b"; py "l"; py "i.png"] [] =
    Ok (article_html (py "a" ++ [0xA0] ++ py "b") (py "l")
                     (py "a" ++ [0xA0] ++ py "b") (py "i.png") []) ∧
  article [py "a b　c"; py "l"; py "i.png"] [] =
    Ok (article_html (py "a-b-c") (py "l") (py "a b　c") (py "i.png") []) ∧
  contains (py "id=" ++ dq ++ py "a-b" ++ dq)
           (article_html (py "a" ++ [0xA0] ++ py "b") (py "l")
                         (py "a" ++ [0xA0] ++ py "b") (py "i.png") []) = false.
Proof. vm_compute. split_and!; reflexivity. Qed.

Lemma mp4_two_values_witness :
  role_of ascii_lower (py "Poster.JPG") ≠ role_of ascii_lower (py "Clip.MP4") ∧
  ∃ args,
    mp4_arguments ascii_lower [py "Poster.JPG"; py "Clip.MP4"] = Ok args ∧
    mp4_arguments ascii_lower [py "Clip.MP4"; py "Poster.JPG"] = Ok args ∧
    slot (role_of ascii_lower (py "Clip.MP4")) args = ascii_lower (py "Clip.MP4") ∧
    slot (role_of ascii_lower (py "Poster.JPG")) args = ascii_lower (py "Poster.JPG").
Proof.
  assert (Hne : role_of ascii_lower (py "Poster.JPG") ≠
                role_of ascii_lower (py "Clip.MP4"))
    by (vm_compute; discriminate).
  split; [exact Hne|].
  destruct (mp4_two_values ascii_lower (py "Poster.JPG") (py "Clip.MP4"))
    as [(args & H1 & H2 & H3 & _) _].
  destruct (H3 Hne) as [H3a H4]. exists args. split_and!; assumption.
Defined.

(** C10 as stated fails: two values of the same role do not both get
    their role, the second one takes the slot and the order matters. *)
Lemma mp4_two_values_counterexample :
  mp4_arguments ascii_lower [py "a.mp4"; py "b.mp4"] = Ok (py "b.mp4", [], [], []) ∧
  mp4_arguments ascii_lower [py "b.mp4"; py "a.mp4"] = Ok (py "a.mp4", [], [], []) ∧
  mp4_arguments ascii_lower [py "a.mp4"; py "b.mp4"] ≠
  mp4_arguments ascii_lower [py "b.mp4"; py "a.mp4"].
Proof. vm_compute. split_and!; done. Qed.

Section OptionStrings.

Ltac literals :=
  repeat match goal with
    | |- context [py ?s] =>
      let v := eval vm_compute in (py s) in change (py s) with v
    end.

Lemma replace_loop_controls n :
  replace_from (py "loop ") [] 0 (concat (replicate n (py " controls"))) =
  concat (replicate n (py " controls")).
Proof.
  induction n as [|n IH]; [done|].
  cbn [replicate concat]. revert IH. literals. intros IH.
  simpl. by rewrite IH.
Qed.

Lemma replace_autoplay_controls n :
  replace_from (py "autoplay ") [] 0 (concat (replicate n (py " controls"))) =
  concat (replicate n (py " controls")).
Proof.
  induction n as [|n IH]; [done|].
  cbn [replicate concat]. revert IH. literals. intros IH.
  simpl. by rewrite IH.
Qed.

Lemma replace_loop l a n :
  replace (py "loop ") [] (option_string l a n) = option_string false a n.
Proof.
  pose proof (replace_loop_controls n) as H. revert H.
  unfold option_string. generalize (concat (replicate n (py " controls"))).
  intros t. literals. intros H.
  destruct l, a; simpl; by rewrite H.
Qed.

Lemma replace_autoplay l a n :
  replace (py "autoplay ") [] (option_string l a n) = option_string l false n.
Proof.
  pose proof (replace_autoplay_controls n) as H. revert H.
  unfold option_string. generalize (concat (replicate n (py " controls"))).
  intros t. literals. intros H.
  destruct l, a; simpl; by rewrite H.
Qed.

Lemma append_controls l a n :
  option_string l a n ++ py " controls" = option_string l a (S n).
Proof.
  unfold option_string. rewrite <- !app_assoc. do 3 f_equal.
  induction n as [|n IH]; [done|].
  cbn [replicate concat]. by rewrite <- app_assoc, IH.
Qed.

End OptionStrings.

Section CarryOver.
Variable lower : str -> str.
Implicit Types (loc : locals) (i : text_cell).




(** No branch assigns [mp4_options]. *)
Lemma template_keeps_options kw vs c s loc html_str loc' :
  template lower kw vs c s loc = Ok (html_str, loc') →
  mp4_options loc' = mp4_options loc.
Proof.
  unfold template. intros H.
  destruct (str_eqb kw (py "!article")).
  { destruct (article vs s); [|done]. by injection H as _ <-. }
  destruct (str_eqb kw (py "!quote")).
  { destruct (quote vs); [|done]. by injection H as _ <-. }
  destruct (str_eqb kw (py "!mp4")).
  { destruct (mp4 lower vs (mp4_options loc) c s); [|done]. by injection H as _ <-. }
  destruct (str_eqb kw (py "!image")).
  { destruct (image vs c s); [|done]. by injection H as _ <-. }
  destruct (str_eqb kw (py "!youtube")).
  { destruct (youtube vs (video_id loc)) as [[h v]|]; [|done].
    by injection H as _ <-. }
  by injection H as _ <-.
Qed.

(** The options a cell leaves are those its list items leave. *)
Lemma expand_cell_options loc i kw kids loc' out :
  children_text i = kw :: kids →
  in_template_settings kw = true →
  expand_cell lower loc i = Ok (loc', out) →
  mp4_options loc' = options (scan_lis kw (mp4_options loc) (li_text i)).
Proof.
  intros Hk Hin. rewrite (expand_cell_keyword _ _ _ _ _ Hk Hin). cbn zeta.
  destruct (values _) as [|v vs]; [by intros [= <- _]|].
  destruct (template _ _ _ _ _ _) as [[h l2]|e] eqn:E; [|done].
  apply template_keeps_options in E. cbn [mp4_options] in E.
  cbn [mbind result_bind]. by repeat case_match; intros [= <- _].
Qed.


(** The fragment of an [!mp4] cell is built with the options its own
    list items leave. *)
Lemma expand_cell_mp4 loc i kids loc' html_str :
  children_text i = py "!mp4" :: kids →
  expand_cell lower loc i = Ok (loc', Expanded html_str) →
  ∃ mp4_file image_file class_str style_str description,
    html_str =
    mp4_html (options (scan_lis (py "!mp4") (mp4_options loc) (li_text i)))
             mp4_file image_file class_str style_str description.
Proof.
  intros Hk.
  rewrite (expand_cell_keyword _ _ _ _ _ Hk) by (vm_compute; reflexivity).
  cbn zeta. destruct (values _) as [|v vs]; [done|].
  unfold template. keyword_is "!mp4". unfold mp4. cbn [mp4_options].
  destruct (mp4_arguments lower (v :: vs)) as [[[[m im] d] l]|e]; [|done].
  cbn [mbind result_bind]. repeat case_match; intros [= _ <-]; eauto 10.
Qed.


















End CarryOver.


(** Two [!mp4] cells in one document: the second one has no [options:]
    item and plays with the options of the first; a new call starts from
    the default again. *)
Example mp4_options_two_cells :
  expand_document ascii_lower
    [ markdown_cell "!mp4" ["a.mp4"; "options: no_loop, controls"];
      markdown_cell "!mp4" ["b.mp4"] ] =
    Ok [ Expanded (mp4_html (py "autoplay muted playsinline controls")
                            (py "a.mp4") [] [] [] (py "<br>"));
         Expanded (mp4_html (py "autoplay muted playsinline controls")
                            (py "b.mp4") [] [] [] (py "<br>")) ] ∧
  expand_document ascii_lower [ markdown_cell "!mp4" ["b.mp4"] ] =
    Ok [ Expanded (mp4_html (py "loop autoplay muted playsinline")
                            (py "b.mp4") [] [] [] (py "<br>")) ].
Proof. vm_compute. split; reflexivity. Qed.

(** * More on the cell slicer *)

Section SliceEdges.
Context {A : Type}.
Implicit Types (l : list A) (start stop : option Z).

Lemma slice_lo_range start l :
  (0 ≤ slice_lo start l ≤ Z.of_nat (List.length l))%Z.
Proof. apply slice_bound_range. lia. Qed.

Lemma slice_hi_range stop l :
  (0 ≤ slice_hi stop l ≤ Z.of_nat (List.length l))%Z.
Proof. apply slice_bound_range. lia. Qed.

(** X1.  A slice is one unbroken run of the sequence: the sequence is what
    comes before the lower bound, then the slice, then what is left. *)
Theorem py_slice_infix start stop l :
  l = take (Z.to_nat (slice_lo start l)) l ++ py_slice start stop l ++
      drop (Z.to_nat (Z.max (slice_lo start l) (slice_hi stop l))) l.
Proof.
  unfold py_slice.
  pose proof (slice_lo_range start l). pose proof (slice_hi_range stop l).
  set (lo := slice_lo start l) in *. set (hi := slice_hi stop l) in *.
  rewrite <- (take_drop (Z.to_nat lo) l) at 1. f_equal.
  rewrite <- (take_drop (Z.to_nat (hi - lo)) (drop (Z.to_nat lo) l)) at 1.
  f_equal. rewrite drop_drop. f_equal. lia.
Qed.

(** X2.  No pair of bounds is an error and none gives more than the
    sequence has: the slice has [hi - lo] elements when the upper bound is
    beyond the lower one and none otherwise; in particular it is empty
    when [start] is at or past the end, and when [stop] is at or before
    the start. *)
Theorem py_slice_bounds start stop l :
  List.length (py_slice start stop l) =
    Z.to_nat (slice_hi stop l - slice_lo start l) ∧
  (List.length (py_slice start stop l) ≤ List.length l)%nat ∧
  (∀ s, (Z.of_nat (List.length l) ≤ s)%Z → py_slice (Some s) stop l = []) ∧
  (∀ e, (e ≤ - Z.of_nat (List.length l))%Z ∨ e = 0%Z → py_slice start (Some e) l = []) ∧
  (∀ s e, (0 ≤ e ≤ s)%Z → py_slice (Some s) (Some e) l = []).
Proof.
  pose proof (slice_lo_range start l). pose proof (slice_hi_range stop l).
  assert (Hlen : ∀ start stop, List.length (py_slice start stop l) =
                   Z.to_nat (slice_hi stop l - slice_lo start l))
    by (intros; apply py_slice_length).
  split_and!.
  - apply Hlen.
  - rewrite Hlen. lia.
  - intros s Hs. apply nil_length_inv. rewrite Hlen.
    pose proof (slice_hi_range stop l).
    unfold slice_lo, slice_bound. destruct (Z.ltb_spec s 0); lia.
  - intros e He. apply nil_length_inv. rewrite Hlen.
    pose proof (slice_lo_range start l).
    unfold slice_hi, slice_bound. destruct (Z.ltb_spec e 0); lia.
  - intros s e Hse. apply nil_length_inv. rewrite Hlen.
    unfold slice_lo, slice_hi, slice_bound.
    destruct (Z.ltb_spec s 0), (Z.ltb_spec e 0); lia.
Qed.

(** X3.  Negative bounds count from the end: [l[-k:]] is the last [k]
    elements and [l[:-k]] is all but the last [k]. *)
Theorem py_slice_negative (k : nat) l :
  (0 < k ≤ List.length l)%nat →
  py_slice (Some (- Z.of_nat k)%Z) None l = drop (List.length l - k) l ∧
  py_slice None (Some (- Z.of_nat k)%Z) l = take (List.length l - k) l.
Proof.
  intros Hk. unfold py_slice, slice_lo, slice_hi, slice_bound. simpl.
  destruct (Z.ltb_spec (- Z.of_nat k) 0); [|lia].
  split.
  - replace (Z.to_nat (Z.max 0 (- Z.of_nat k + Z.of_nat (List.length l))))
      with (List.length l - k)%nat by lia.
    apply take_ge. rewrite length_drop. lia.
  - rewrite Z.sub_0_r. f_equal. lia.
Qed.

(** X4.  Slicing a slice, with bounds counted from the front: the second
    pair of bounds is shifted by the first lower bound and cut at the
    first upper bound. *)
Theorem py_slice_py_slice (s e a b : nat) l :
  (s ≤ e ≤ List.length l)%nat →
  py_slice (Some (Z.of_nat a)) (Some (Z.of_nat b))
           (py_slice (Some (Z.of_nat s)) (Some (Z.of_nat e)) l) =
  py_slice (Some (Z.of_nat (s + a))) (Some (Z.of_nat (Nat.min e (s + b)))) l.
Proof.
  intros Hse. apply list_eq. intros i.
  rewrite !py_slice_lookup.
  pose proof (py_slice_length (Some (Z.of_nat s)) (Some (Z.of_nat e)) l) as Hl.
  revert Hl.
  unfold slice_lo, slice_hi, slice_bound.
  repeat match goal with
         | |- context [Z.ltb ?x 0] => destruct (Z.ltb_spec x 0); [lia|]
         end.
  intros Hl. rewrite !Hl.
  repeat case_decide; try lia; try done.
  f_equal. lia.
Qed.

End SliceEdges.

Section PreprocessAgain.

Lemma preprocess_eq {R : Type} (self : SubCell) (h : gmap loc notebook)
      (nb : loc) (n : notebook) (resources : R) :
  h !! nb = Some n →
  preprocess self h nb resources =
  Some (<[fresh (dom h) := set_cells n (py_slice (start self) (end_ self) (cells n))]> h,
        (fresh (dom h), resources)).
Proof.
  intros Hnb. unfold preprocess, deepcopy. rewrite Hnb. simpl.
  rewrite lookup_insert_eq. simpl. by rewrite insert_insert_eq.
Qed.

(** X5.  Two calls in a row, the second on the result of the first: the
    second result is a third notebook, whose cells are the slice of the
    slice, and the notebook given and the first result are as they
    were. *)
Theorem preprocess_twice {R : Type} (self1 self2 : SubCell) (h : gmap loc notebook)
        (nb : loc) (n : notebook) (resources : R) :
  h !! nb = Some n →
  ∃ h1 nbc1 h2 nbc2 n1 n2,
    preprocess self1 h nb resources = Some (h1, (nbc1, resources)) ∧
    preprocess self2 h1 nbc1 resources = Some (h2, (nbc2, resources)) ∧
    nbc1 ≠ nb ∧ nbc2 ≠ nb ∧ nbc2 ≠ nbc1 ∧
    h2 !! nb = Some n ∧ h2 !! nbc1 = Some n1 ∧ h1 !! nbc1 = Some n1 ∧
    h2 !! nbc2 = Some n2 ∧
    cells n1 = py_slice (start self1) (end_ self1) (cells n) ∧
    cells n2 = py_slice (start self2) (end_ self2)
                        (py_slice (start self1) (end_ self1) (cells n)).
Proof.
  intros Hnb.
  set (n1 := set_cells n (py_slice (start self1) (end_ self1) (cells n))).
  set (nbc1 := fresh (dom h)).
  set (h1 := <[nbc1 := n1]> h).
  set (n2 := set_cells n1 (py_slice (start self2) (end_ self2) (cells n1))).
  set (nbc2 := fresh (dom h1)).
  assert (H1 : h !! nbc1 = None) by apply not_elem_of_dom, is_fresh.
  assert (H2 : h1 !! nbc2 = None) by apply not_elem_of_dom, is_fresh.
  assert (Hn1 : h1 !! nbc1 = Some n1) by apply lookup_insert_eq.
  assert (Hnb1 : h1 !! nb = Some n).
  { unfold h1. rewrite lookup_insert_ne; [done|congruence]. }
  exists h1, nbc1, (<[nbc2 := n2]> h1), nbc2, n1, n2.
  split_and!; try done.
  - by apply preprocess_eq.
  - by apply preprocess_eq.
  - congruence.
  - congruence.
  - congruence.
  - rewrite lookup_insert_ne; [done|congruence].
  - rewrite lookup_insert_ne; [done|congruence].
  - apply lookup_insert_eq.
Qed.

End PreprocessAgain.

Lemma py_slice_negative_witness :
  (0 < 2 ≤ List.length (cells three_cells))%nat ∧
  py_slice (Some (- Z.of_nat 2)%Z) None (cells three_cells) =
    drop (List.length (cells three_cells) - 2) (cells three_cells).
Proof.
  split; [simpl; lia|].
  apply (py_slice_negative 2 (cells three_cells)). simpl. lia.
Defined.

Lemma py_slice_py_slice_witness :
  (1 ≤ 3 ≤ List.length (cells three_cells))%nat ∧
  py_slice (Some (Z.of_nat 0)) (Some (Z.of_nat 1))
           (py_slice (Some (Z.of_nat 1)) (Some (Z.of_nat 3)) (cells three_cells)) =
  py_slice (Some (Z.of_nat (1 + 0))) (Some (Z.of_nat (Nat.min 3 (1 + 1))))
           (cells three_cells).
Proof.
  split; [simpl; lia|].
  apply (py_slice_py_slice 1 3 0 1 (cells three_cells)). simpl. lia.
Defined.

Lemma preprocess_twice_witness :
  one_notebook !! 1%positive = Some three_cells ∧
  ∃ h1 nbc1 h2 nbc2 n1 n2,
    preprocess {| start := Some 1%Z; end_ := None |} one_notebook 1%positive tt =
      Some (h1, (nbc1, tt)) ∧
    preprocess {| start := None; end_ := Some 1%Z |} h1 nbc1 tt =
      Some (h2, (nbc2, tt)) ∧
    h2 !! 1%positive = Some three_cells ∧ h2 !! nbc1 = Some n1 ∧
    h2 !! nbc2 = Some n2 ∧
    cells n2 = py_slice None (Some 1%Z) (py_slice (Some 1%Z) None (cells three_cells)).
Proof.
  split; [reflexivity|].
  destruct (preprocess_twice {| start := Some 1%Z; end_ := None |}
              {| start := None; end_ := Some 1%Z |} one_notebook 1%positive
              three_cells tt eq_refl)
    as (h1 & nbc1 & h2 & nbc2 & n1 & n2 & H1 & H2 & _ & _ & _ & H6 & H7 & _ & H9 & _ & H11).
  exists h1, nbc1, h2, nbc2, n1, n2. split_and!; assumption.
Defined.

Lemma py_slice_bounds_witness :
  (Z.of_nat (List.length (cells three_cells)) ≤ 7)%Z ∧
  py_slice (Some 7%Z) None (cells three_cells) = [] ∧
  py_slice None (Some 0%Z) (cells three_cells) = [] ∧
  py_slice (Some 2%Z) (Some 1%Z) (cells three_cells) = [].
Proof.
  assert (H : (Z.of_nat (List.length (cells three_cells)) ≤ 7)%Z) by (simpl; lia).
  split; [exact H|].
  split_and!.
  - exact (proj1 (proj2 (proj2 (py_slice_bounds None None (cells three_cells)))) 7%Z H).
  - exact (proj1 (proj2 (proj2 (proj2 (py_slice_bounds None None (cells three_cells)))))
             0%Z (or_intror eq_refl)).
  - apply (proj2 (proj2 (proj2 (proj2 (py_slice_bounds None None (cells three_cells)))))).
    lia.
Defined.

(** * More on strings *)

Section MoreStrFacts.
Implicit Types (p s a b old new : str) (c : char).

Lemma find_from_none p s i : contains p s = false → find_from p s i = (-1)%Z.
Proof.
  revert i. induction s as [|c s IH]; intros i H; simpl in *.
  - apply orb_false_iff in H as [-> _]. done.
  - apply orb_false_iff in H as [-> H]. by apply IH.
Qed.

Lemma find_none p s : contains p s = false → find p s = (-1)%Z.
Proof. apply find_from_none. Qed.

Lemma find_head p s : startswith p s = true → find p s = 0%Z.
Proof. intros H. unfold find. destruct s; simpl in *; by rewrite H. Qed.

Lemma find_from_range p s i :
  find_from p s i = (-1)%Z ∨
  (i ≤ find_from p s i ≤ i + Z.of_nat (List.length s))%Z.
Proof.
  revert i. induction s as [|c s IH]; intros i; simpl.
  - destruct (startswith p []); [right; lia|by left].
  - destruct (startswith p (c :: s)); [right; lia|].
    destruct (IH (i + 1)%Z) as [->|H]; [by left|right; lia].
Qed.

Lemma replace_from_skip old new k s :
  replace_from old new k s = replace_from old new 0 (drop k s).
Proof.
  revert k. induction s as [|c s IH]; intros [|k]; try done.
  simpl. apply IH.
Qed.

(** Where [old] does not occur, [replace] changes nothing. *)
Lemma replace_from_clean old new s :
  contains old s = false → replace_from old new 0 s = s.
Proof.
  induction s as [|c s IH]; intros H; [done|].
  simpl in H. apply orb_false_iff in H as [H1 H2].
  cbn [replace_from]. rewrite H1. f_equal. by apply IH.
Qed.

Lemma replace_clean old new s :
  old ≠ [] → contains old s = false → replace old new s = s.
Proof.
  intros Ho H. unfold replace. destruct old; [done|]. by apply replace_from_clean.
Qed.

(** An occurrence at the head is replaced and the scan goes on behind it. *)
Lemma replace_head old new s :
  old ≠ [] → replace old new (old ++ s) = new ++ replace old new s.
Proof.
  intros Ho. unfold replace. destruct old as [|c old]; [done|].
  change ((c :: old) ++ s) with (c :: (old ++ s)).
  cbn [replace_from].
  change (c :: (old ++ s)) with ((c :: old) ++ s).
  rewrite startswith_app_self. f_equal.
  rewrite replace_from_skip. simpl. rewrite Nat.sub_0_r.
  by rewrite drop_app_length.
Qed.

Lemma re_delete_sublist m k s : re_delete m k s `sublist_of` s.
Proof.
  revert k. induction s as [|c s IH]; intros k; [done|].
  simpl. destruct k as [|k].
  - destruct (m (c :: s)) as [[|j]|].
    + by apply sublist_skip.
    + by apply sublist_cons.
    + by apply sublist_skip.
  - by apply sublist_cons.
Qed.

Lemma contains_join x sep (l : list str) :
  x ∈ l → contains x (join sep l) = true.
Proof.
  induction l as [|y l IH]; intros Hx; [by apply elem_of_nil in Hx|].
  apply elem_of_cons in Hx as [->|Hx].
  - destruct l as [|z l]; simpl.
    + apply contains_prefix, startswith_refl.
    + apply contains_prefix, startswith_app_self.
  - destruct l as [|z l]; [by apply elem_of_nil in Hx|].
    change (join sep (y :: z :: l)) with (y ++ sep ++ join sep (z :: l)).
    by apply contains_app_r, contains_app_r, IH.
Qed.

Lemma contains_app_l p s b : contains p s = true → contains p (s ++ b) = true.
Proof.
  intros (x & y & ->)%contains_spec. apply contains_spec.
  exists x, (y ++ b). by rewrite <- !app_assoc.
Qed.

End MoreStrFacts.

(** * More on the CSS finisher *)

Section MoreCss.
Implicit Types (s a style : str).

(** X6.  [parse_css] fails in one way only: [ignore_css] is off and
    [info] has no ['inlining'], or its ['inlining'] has no ['css']; the
    error is the [KeyError] of the missing key, whatever [fix_css] is. *)
Theorem parse_css_key_error (content : str)
        (info : gmap string (gmap string (list str))) (fix_css ignore_css : bool)
        (e : exn) :
  parse_css content info fix_css ignore_css = Raise e ↔
  ignore_css = false ∧
  (info !! "inlining"%string = None ∧ e = KeyError "inlining" ∨
   ∃ inlining, info !! "inlining"%string = Some inlining ∧
               inlining !! "css"%string = None ∧ e = KeyError "css").
Proof.
  unfold parse_css, inlining_css. destruct ignore_css.
  { split; [done|]. by intros [? _]. }
  destruct (info !! "inlining"%string) as [d|] eqn:Hi; simpl.
  - destruct (d !! "css"%string) as [css|] eqn:Hc; simpl.
    + split; [done|]. intros [_ [[? _]|(d' & [= <-] & ? & _)]]; congruence.
    + split.
      * intros [= <-]. split; [done|]. right. by exists d.
      * intros [_ [[? _]|(d' & _ & _ & ->)]]; done.
  - split.
    + intros [= <-]. split; [done|]. by left.
    + intros [_ [[_ ->]|(d' & ? & _)]]; done.
Qed.

(** X7.  Whenever [parse_css] returns, the result ends with the content
    followed by the MathJax script; what comes before is empty when
    [ignore_css] is on or there is no fragment; and with both options
    off every fragment is in the result as it is, inside its style
    tag. *)
Theorem parse_css_tail (content : str)
        (info : gmap string (gmap string (list str))) (fix_css ignore_css : bool)
        (out : str) :
  parse_css content info fix_css ignore_css = Ok out →
  ∃ front,
    out = front ++ content ++ LATEX_CUSTOM_SCRIPT ∧
    (ignore_css = true → front = []) ∧
    (inlining_css info = Ok [] → front = []) ∧
    (ignore_css = false → fix_css = false →
     ∀ css style, inlining_css info = Ok css → style ∈ css →
       contains (style_tag style) front = true).
Proof.
  unfold parse_css. destruct ignore_css.
  { intros [= <-]. exists []. cbn [app]. split_and!; [reflexivity|done..]. }
  destruct (inlining_css info) as [css|] eqn:Hc; [|done].
  cbn [mbind result_bind].
  intros [= <-]. eexists. split_and!; [reflexivity|done| |].
  - intros [= ->]. by destruct fix_css.
  - intros _ -> css' style [= <-] Hs.
    apply contains_join, list_elem_of_In, in_map. by apply list_elem_of_In.
Qed.

Lemma match_rendered_miss s :
  startswith (py ".rendered_html") s = false → match_rendered s = None.
Proof. intros H. unfold match_rendered, after_literal. by rewrite H. Qed.

Lemma sub_rendered_clean s :
  contains (py ".rendered_html") s = false → sub_rendered s = s.
Proof.
  intros H. apply re_delete_none. intros i.
  by apply match_rendered_miss, not_contains_drop.
Qed.

Lemma trim_markers_clean s :
  contains notebook_marker s = false → contains webapp_marker s = false →
  trim_markers s = s.
Proof.
  intros H1 H2. unfold trim_markers. rewrite (find_none _ _ H1). simpl.
  by rewrite (find_none _ _ H2).
Qed.

(** X8.  A fragment with no marker, no [color:#0] and no [.rendered_html]
    goes into its style tag unchanged. *)
Theorem filter_css_clean style :
  contains notebook_marker style = false →
  contains webapp_marker style = false →
  contains (py "color:#0") style = false →
  contains (py ".rendered_html") style = false →
  filter_css style = style_tag style.
Proof.
  intros H1 H2 H3 H4. unfold filter_css.
  by rewrite trim_markers_clean, sub_color_clean, sub_rendered_clean.
Qed.

Lemma trim_markers_parts style :
  ∃ a b, style = a ++ trim_markers style ++ b.
Proof.
  unfold trim_markers.
  set (i := find notebook_marker style).
  set (s1 := if (0 <? i)%Z then drop (Z.to_nat i) style else style).
  assert (H1 : ∃ a, style = a ++ s1).
  { unfold s1. destruct (0 <? i)%Z.
    - exists (take (Z.to_nat i) style). by rewrite take_drop.
    - by exists []. }
  destruct H1 as [a Ha].
  set (j := find webapp_marker s1).
  destruct (0 <? j)%Z.
  - exists a, (drop (Z.to_nat j) s1). by rewrite take_drop.
  - exists a, []. by rewrite app_nil_r.
Qed.

(** X9.  The filter only takes text away: what is inside the style tag
    is the fragment with some characters left out, in the same order. *)
Theorem filter_css_sublist style :
  ∃ body,
    filter_css style = style_tag body ∧
    body `sublist_of` style ∧
    (List.length body ≤ List.length style)%nat.
Proof.
  exists (sub_rendered (sub_color (trim_markers style))).
  assert (H : sub_rendered (sub_color (trim_markers style)) `sublist_of` style).
  { etrans; [apply re_delete_sublist|]. etrans; [apply re_delete_sublist|].
    destruct (trim_markers_parts style) as (a & b & Hab).
    rewrite Hab at 2. apply sublist_inserts_l, sublist_inserts_r. done. }
  split_and!; [done|done|]. by apply sublist_length.
Qed.

(** X10.  The two cuts are made only at a marker that is found past the
    first character: a fragment with neither marker is kept whole, and so
    is one that begins with the notebook marker (and has no webapp
    marker), and one that begins with the webapp marker (and has no
    notebook marker) — the webapp part is then not cut off. *)
Theorem trim_markers_edges style :
  (contains notebook_marker style = false →
   contains webapp_marker style = false → trim_markers style = style) ∧
  (startswith notebook_marker style = true →
   contains webapp_marker style = false → trim_markers style = style) ∧
  (startswith webapp_marker style = true →
   contains notebook_marker style = false → trim_markers style = style).
Proof.
  split_and!.
  - apply trim_markers_clean.
  - intros H1 H2. unfold trim_markers. rewrite (find_head _ _ H1). simpl.
    by rewrite (find_none _ _ H2).
  - intros H1 H2. unfold trim_markers. rewrite (find_none _ _ H2). simpl.
    by rewrite (find_head _ _ H1).
Qed.

Lemma run_length_all (f : char → bool) a c s :
  forallb f a = true → f c = false →
  run_length f (a ++ c :: s) = List.length a.
Proof.
  intros Ha Hc. induction a as [|x a IH]; simpl in *.
  - by rewrite Hc.
  - apply andb_true_iff in Ha as [-> Ha]. by rewrite IH.
Qed.

Lemma match_rendered_hit sel decl s :
  forallb selector_char sel = true →
  forallb declaration_char decl = true → decl ≠ [] →
  match_rendered (py ".rendered_html" ++ sel ++ py "{" ++ decl ++ py "}" ++ s) =
  Some (List.length (py ".rendered_html" ++ sel ++ py "{" ++ decl ++ py "}")).
Proof.
  intros Hs Hd Hne. unfold match_rendered, after_literal.
  rewrite startswith_app_self, drop_app_length.
  change (py "{") with [123]. change (py "}") with [125].
  change ([123] ++ decl ++ [125] ++ s) with (123 :: (decl ++ 125 :: s)).
  rewrite run_length_all by done. rewrite drop_app_length.
  change (123 =? 123) with true. cbn iota.
  rewrite run_length_all by done.
  destruct decl as [|d decl]; [done|]. cbn [List.length].
  change (d :: decl ++ 125 :: s) with ((d :: decl) ++ 125 :: s).
  replace (S (List.length decl)) with (List.length (d :: decl)) by done.
  rewrite drop_app_length. change (125 =? 125) with true. cbn iota.
  f_equal. rewrite !length_app. simpl. lia.
Qed.

(** X11.  A [.rendered_html] rule whose selector and declarations are
    made of the characters the pattern allows is deleted whole, with its
    braces; what is before it stays and the scan goes on behind it. *)
Theorem sub_rendered_first a sel decl s :
  contains (py ".rendered_html") a = false →
  forallb selector_char sel = true →
  forallb declaration_char decl = true → decl ≠ [] →
  sub_rendered (a ++ py ".rendered_html" ++ sel ++ py "{" ++ decl ++ py "}" ++ s) =
  a ++ sub_rendered s.
Proof.
  intros Ha Hs Hd Hne. unfold sub_rendered.
  set (x := py ".rendered_html" ++ sel ++ py "{" ++ decl ++ py "}").
  assert (Hx : List.length x = S (List.length x - 1)).
  { unfold x. rewrite length_app.
    change (List.length (py ".rendered_html")) with 14%nat. lia. }
  replace (a ++ py ".rendered_html" ++ sel ++ py "{" ++ decl ++ py "}" ++ s)
    with (a ++ x ++ s) by (unfold x; by rewrite <- !app_assoc).
  apply re_delete_first with (k := (List.length x - 1)%nat); [| |done].
  - intros i Hi. apply match_rendered_miss.
    rewrite drop_app_le by lia.
    pose proof (not_contains_drop _ _ i Ha) as Hd'.
    assert (Hne' : drop i a ≠ []).
    { intros E. apply (f_equal List.length) in E.
      rewrite length_drop in E. simpl in E. lia. }
    change (py ".rendered_html") with (46 :: py "rendered_html") in *.
    change (x ++ s) with (46 :: drop 1 x ++ s).
    rewrite startswith_no_overlap; [done| |done]. not_in_literal.
  - rewrite <- Hx. unfold x. rewrite <- !app_assoc. by apply match_rendered_hit.
Qed.

End MoreCss.

Lemma parse_css_tail_witness :
  parse_css (py "<p>x</p>") (info_of [py "b{}"]) false false =
    Ok (style_tag (py "b{}") ++ py "<p>x</p>" ++ LATEX_CUSTOM_SCRIPT) ∧
  ∃ front,
    style_tag (py "b{}") ++ py "<p>x</p>" ++ LATEX_CUSTOM_SCRIPT =
      front ++ py "<p>x</p>" ++ LATEX_CUSTOM_SCRIPT ∧
    contains (style_tag (py "b{}")) front = true.
Proof.
  assert (H : parse_css (py "<p>x</p>") (info_of [py "b{}"]) false false =
              Ok (style_tag (py "b{}") ++ py "<p>x</p>" ++ LATEX_CUSTOM_SCRIPT))
    by (vm_compute; reflexivity).
  split; [exact H|].
  destruct (parse_css_tail _ _ _ _ _ H) as (front & H1 & _ & _ & H4).
  exists front. split; [exact H1|].
  apply (H4 eq_refl eq_refl [py "b{}"] (py "b{}")); [reflexivity|].
  apply list_elem_of_here.
Defined.

Lemma filter_css_clean_witness :
  contains notebook_marker (py "p{margin:0}") = false ∧
  filter_css (py "p{margin:0}") = style_tag (py "p{margin:0}").
Proof.
  split; [vm_compute; reflexivity|].
  apply filter_css_clean; vm_compute; reflexivity.
Defined.

Lemma trim_markers_edges_witness :
  startswith webapp_marker (webapp_marker ++ py "body{}") = true ∧
  contains notebook_marker (webapp_marker ++ py "body{}") = false ∧
  trim_markers (webapp_marker ++ py "body{}") = webapp_marker ++ py "body{}" ∧
  trim_markers (notebook_marker ++ py "div{}") = notebook_marker ++ py "div{}" ∧
  trim_markers (py "div{}") = py "div{}".
Proof.
  split; [vm_compute; reflexivity|]. split; [vm_compute; reflexivity|].
  split_and!.
  - apply (proj2 (proj2 (trim_markers_edges (webapp_marker ++ py "body{}"))));
      vm_compute; reflexivity.
  - apply (proj1 (proj2 (trim_markers_edges (notebook_marker ++ py "div{}"))));
      vm_compute; reflexivity.
  - apply (proj1 (trim_markers_edges (py "div{}"))); vm_compute; reflexivity.
Defined.

Lemma sub_rendered_first_witness :
  contains (py ".rendered_html") (py "a{}") = false ∧
  forallb selector_char (py " p, .x") = true ∧
  forallb declaration_char (py "margin:0 ;") = true ∧
  sub_rendered (py "a{}" ++ py ".rendered_html" ++ py " p, .x" ++ py "{" ++
                py "margin:0 ;" ++ py "}" ++ py "b{}") =
    py "a{}" ++ sub_rendered (py "b{}").
Proof.
  split; [vm_compute; reflexivity|]. split; [vm_compute; reflexivity|].
  split; [vm_compute; reflexivity|].
  apply sub_rendered_first; try (vm_compute; reflexivity). vm_compute. discriminate.
Defined.

Lemma parse_css_key_error_witness :
  parse_css (py "x") ∅ true false = Raise (KeyError "inlining") ∧
  parse_css (py "x") {[ "inlining"%string := ∅ ]} false false = Raise (KeyError "css").
Proof.
  split.
  - apply parse_css_key_error. split; [done|]. left. done.
  - apply parse_css_key_error. split; [done|]. right.
    exists ∅. done.
Defined.


(** * More on the template expander *)

Lemma in_template_settings_keywords t :
  in_template_settings t = true ↔ t ∈ keywords.
Proof.
  unfold in_template_settings, template_settings, keywords.
  cbn [existsb fst]. rewrite !orb_true_iff, !str_eqb_eq, !elem_of_cons.
  rewrite elem_of_nil. intuition discriminate.
Qed.

Lemma scan_option_items acc items :
  Forall (λ t, str_eqb t (py "dark") = false ∧
               startswith (py "style:") t = false ∧
               contains (py "options:") t = true) items →
  values (fold_left (scan_li (py "!mp4")) items acc) = values acc ∧
  style_str (fold_left (scan_li (py "!mp4")) items acc) = style_str acc.
Proof.
  intros H. revert acc. induction H as [|t items (H1 & H2 & H3) _ IH]; intros acc.
  - done.
  - cbn [fold_left]. destruct (IH (scan_li (py "!mp4") acc t)) as [-> ->].
    unfold scan_li. rewrite H1, H2, H3. keyword_is "!mp4". done.
Qed.

Lemma quote_total vs : vs ≠ [] → ∃ h, quote vs = Ok h.
Proof.
  intros H. destruct vs as [|q [|a vs]]; [done| |]; unfold quote; simpl; eauto.
Qed.

Lemma image_total vs c s : vs ≠ [] → ∃ h, image vs c s = Ok h.
Proof.
  intros H. destruct vs as [|f [|d [|l [|n [|x vs]]]]]; [done|..];
    unfold image; simpl; eauto.
Qed.

Section MoreExpander.
Variable lower : str -> str.
Implicit Types (loc : locals) (i : text_cell) (q v : str).


(** X12.  A cell with no element in it, or whose first element's text is
    not one of the five keywords, is left as it is, and so are the
    locals. *)
Theorem expand_cell_no_keyword loc i :
  (∀ t, head (children_text i) = Some t → t ∉ keywords) →
  expand_cell lower loc i = Ok (loc, Unchanged).
Proof.
  intros H. unfold expand_cell.
  destruct (children_text i) as [|t kids]; [done|].
  destruct (in_template_settings t) eqn:E; [|done].
  apply in_template_settings_keywords in E. by destruct (H t eq_refl).
Qed.

(** When the loop ends without an exception it has one outcome for each
    cell, in the order of the cells. *)
Lemma expand_cells_length loc cs loc' os :
  expand_cells lower loc cs = Ok (loc', os) →
  List.length os = List.length cs.
Proof.
  revert loc os. induction cs as [|i cs IH]; intros loc os H.
  - by injection H as _ <-.
  - simpl in H. destruct (expand_cell lower loc i) as [[l1 o]|e]; [|done].
    simpl in H. destruct (expand_cells lower l1 cs) as [[l2 os']|e] eqn:E; [|done].
    simpl in H. injection H as -> <-. simpl. f_equal. apply (IH _ _ E).
Qed.


(** X13.  An [!mp4] cell whose list items are all [options:] items has no
    positional value: the cell is left as it is, but the option string
    its items leave is handed on to the cells after it. *)
Theorem mp4_options_only loc i kids :
  children_text i = py "!mp4" :: kids →
  Forall (λ t, str_eqb t (py "dark") = false ∧
               startswith (py "style:") t = false ∧
               contains (py "options:") t = true) (li_text i) →
  expand_cell lower loc i =
    Ok ({| mp4_options := options (scan_lis (py "!mp4") (mp4_options loc) (li_text i));
           video_id := video_id loc |}, Unchanged).
Proof.
  intros Hk Hi. open_cell Hk.
  destruct (scan_option_items
              {| style_str := []; options := mp4_options loc; values := [] |}
              (li_text i) Hi) as [Hv _].
  fold (scan_lis (py "!mp4") (mp4_options loc) (li_text i)) in Hv.
  by rewrite Hv.
Qed.



(** X14.  A [!quote] or [!image] cell with at least one positional value
    but without a [p] element, or without a [ul] element (an ordered list,
    say), ends the conversion with [AttributeError]. *)
Theorem missing_p_or_ul loc i kw kids :
  children_text i = kw :: kids →
  kw = py "!quote" ∨ kw = py "!image" →
  values (scan_lis kw (mp4_options loc) (li_text i)) ≠ [] →
  has_p i = false ∨ has_ul i = false →
  expand_cell lower loc i = Raise AttributeError.
Proof.
  intros Hk Hkw Hv Hpu.
  rewrite (expand_cell_keyword _ _ _ _ _ Hk)
    by (destruct Hkw as [-> | ->]; vm_compute; reflexivity).
  cbn zeta. destruct (values _) as [|v vs] eqn:E; [done|].
  unfold template. destruct Hkw as [-> | ->].
  - keyword_is "!quote".
    destruct (quote_total (v :: vs)) as [h ->]; [done|].
    cbn [mbind result_bind]. by destruct Hpu as [-> | ->]; [|destruct (has_p i)].
  - keyword_is "!image".
    destruct (image_total (v :: vs) []
                (if truthy (style_str (scan_lis (py "!image") (mp4_options loc) (li_text i)))
                 then py "style=" ++ dq ++
                      style_str (scan_lis (py "!image") (mp4_options loc) (li_text i)) ++ dq
                 else [])) as [h ->]; [done|].
    cbn [mbind result_bind]. by destruct Hpu as [-> | ->]; [|destruct (has_p i)].
Qed.

(** X15.  A [!youtube] cell with five or more positional values assigns
    no id: it embeds the id of the last [!youtube] cell before it, with
    no start or end and no caption, and if there has been none it ends
    the conversion with [UnboundLocalError]. *)
Theorem youtube_many_values loc i kids st o vs :
  children_text i = py "!youtube" :: kids →
  scan_lis (py "!youtube") (mp4_options loc) (li_text i) =
    {| style_str := st; options := o; values := vs |} →
  (5 ≤ List.length vs)%nat →
  (video_id loc = None → expand_cell lower loc i = Raise UnboundLocalError) ∧
  (∀ v0, video_id loc = Some v0 → has_p i = true → has_ul i = true →
         expand_cell lower loc i =
           Ok (loc, Expanded (youtube_html v0 [] (py "<br>")))).
Proof.
  intros Hk Hsc Hn.
  pose proof (scan_lis_keeps_options (py "!youtube") (mp4_options loc) (li_text i)
                ltac:(vm_compute; reflexivity)) as Ho.
  rewrite Hsc in Ho. cbn [options] in Ho. subst o.
  destruct vs as [|v1 [|v2 [|v3 [|v4 [|v5 vs]]]]]; try (simpl in Hn; lia).
  split.
  - intros Hv. open_cell Hk. rewrite Hsc. cbn [values style_str options].
    unfold template. keyword_is "!youtube". unfold youtube.
    cbn [video_id]. rewrite Hv. done.
  - intros v0 Hv Hp Hu. open_cell Hk. rewrite Hsc. cbn [values style_str options].
    unfold template. keyword_is "!youtube". unfold youtube.
    cbn [video_id mp4_options]. rewrite Hv. cbn [truthy mbind result_bind].
    rewrite Hp, Hu. do 2 f_equal. rewrite <- Hv. apply locals_eta.
Qed.

(** X16.  A [!youtube] cell with one or two positional values embeds the
    id alone: the [src] is the embed address followed by the id and
    closed right after it, so it holds no [?start=] unless the id does;
    the id is kept for the cells after it. *)
Theorem youtube_id_only loc i kids st o vs v :
  children_text i = py "!youtube" :: kids →
  scan_lis (py "!youtube") (mp4_options loc) (li_text i) =
    {| style_str := st; options := o; values := vs |} →
  has_p i = true → has_ul i = true →
  vs = [v] ∨ (∃ d, vs = [v; d]) →
  ∃ html_str,
    expand_cell lower loc i =
      Ok ({| mp4_options := mp4_options loc; video_id := Some v |},
          Expanded html_str) ∧
    contains (py "src=" ++ dq ++ iframe_src v [] ++ dq) html_str = true ∧
    iframe_src v [] = py "https://www.youtube-nocookie.com/embed/" ++ v ∧
    (63 ∉ v → contains (py "?start=") (iframe_src v []) = false).
Proof.
  intros Hk Hsc Hp Hu Hvs.
  pose proof (scan_lis_keeps_options (py "!youtube") (mp4_options loc) (li_text i)
                ltac:(vm_compute; reflexivity)) as Ho.
  rewrite Hsc in Ho. cbn [options] in Ho. subst o.
  assert (Hsrc : iframe_src v [] = py "https://www.youtube-nocookie.com/embed/" ++ v)
    by (unfold iframe_src; by rewrite app_nil_r).
  assert (Hq : 63 ∉ v → contains (py "?start=") (iframe_src v []) = false).
  { intros Hv. apply (contains_without 63); [in_literal|].
    rewrite Hsrc. intros H.
    apply elem_of_app in H as [H|H]; [not_in_literal|done]. }
  destruct Hvs as [-> | [d ->]].
  - exists (youtube_html v [] (py "<br>")). split_and!; [|apply youtube_html_src|done..].
    open_cell Hk. rewrite Hsc. cbn [values style_str options].
    unfold template. keyword_is "!youtube". unfold youtube.
    cbn [mbind result_bind mp4_options video_id truthy]. by rewrite Hp, Hu.
  - exists (youtube_html v [] (if truthy d then youtube_description d else py "<br>")).
    split_and!; [|apply youtube_html_src|done..].
    open_cell Hk. rewrite Hsc. cbn [values style_str options].
    unfold template. keyword_is "!youtube". unfold youtube.
    cbn [mbind result_bind mp4_options video_id]. by rewrite Hp, Hu.
Qed.

End MoreExpander.

Ltac py_values :=
  repeat match goal with
    | |- context [py ?s] =>
      let v := eval vm_compute in (py s) in change (py s) with v
    end.


Lemma loop_in_controls n :
  contains (py "loop ") (concat (replicate n (py " controls"))) = false.
Proof.
  induction n as [|n IH]; [done|].
  cbn [replicate concat]. revert IH. py_values. intros IH.
  simpl. by rewrite IH.
Qed.

Lemma autoplay_in_controls n :
  contains (py "autoplay ") (concat (replicate n (py " controls"))) = false.
Proof.
  induction n as [|n IH]; [done|].
  cbn [replicate concat]. revert IH. py_values. intros IH.
  simpl. by rewrite IH.
Qed.

(** An option string has [loop ] in it when it was made with it, and
    likewise [autoplay ]. *)
Lemma loop_in_option_string l a n :
  contains (py "loop ") (option_string l a n) = l.
Proof.
  pose proof (loop_in_controls n) as H. revert H.
  unfold option_string. generalize (concat (replicate n (py " controls"))).
  intros t. py_values. intros H.
  destruct l, a; simpl; by rewrite ?H, ?orb_true_r.
Qed.

Lemma autoplay_in_option_string l a n :
  contains (py "autoplay ") (option_string l a n) = a.
Proof.
  pose proof (autoplay_in_controls n) as H. revert H.
  unfold option_string. generalize (concat (replicate n (py " controls"))).
  intros t. py_values. intros H.
  destruct l, a; simpl; by rewrite ?H, ?orb_true_r.
Qed.

Lemma scan_li_order kw acc text l a n :
  options acc = option_string l a n →
  ∃ l' a' n',
    options (scan_li kw acc text) = option_string l' a' n' ∧
    (l' = true → l = true) ∧ (a' = true → a = true) ∧ (n ≤ n')%nat.
Proof.
  intros Ho. unfold scan_li.
  destruct (str_eqb text (py "dark")); [by exists l, a, n|].
  destruct (startswith (py "style:") text); [by exists l, a, n|].
  destruct (str_eqb kw (py "!mp4") && contains (py "options:") text);
    [|by exists l, a, n].
  cbn [options]. rewrite Ho.
  destruct (contains (py "no-loop") _), (contains (py "no-autoplay") _),
    (contains (py "controls") text);
    rewrite ?replace_loop, ?replace_autoplay, ?append_controls;
    eexists _, _, _; (split; [reflexivity|]); split_and!; (done || lia).
Qed.

Lemma scan_lis_order kw o lis l a n :
  o = option_string l a n →
  ∃ l' a' n',
    options (scan_lis kw o lis) = option_string l' a' n' ∧
    (l' = true → l = true) ∧ (a' = true → a = true) ∧ (n ≤ n')%nat.
Proof.
  intros Ho. unfold scan_lis.
  assert (G : ∀ acc l a n, options acc = option_string l a n →
            ∃ l' a' n',
              options (fold_left (scan_li kw) lis acc) = option_string l' a' n' ∧
              (l' = true → l = true) ∧ (a' = true → a = true) ∧ (n ≤ n')%nat);
    [|by apply G].
  clear. induction lis as [|t lis IH]; intros acc l a n Hacc.
  - exists l, a, n. done.
  - cbn [fold_left].
    destruct (scan_li_order kw acc t l a n Hacc) as (l1 & a1 & n1 & H1 & Hl & Ha & Hn).
    destruct (IH _ _ _ _ H1) as (l2 & a2 & n2 & H2 & Hl2 & Ha2 & Hn2).
    exists l2, a2, n2. split_and!; [done|tauto|tauto|lia].
Qed.

Section OptionsOrder.
Variable lower : str -> str.

Lemma expand_cell_order loc i loc' out l a n :
  mp4_options loc = option_string l a n →
  expand_cell lower loc i = Ok (loc', out) →
  ∃ l' a' n',
    mp4_options loc' = option_string l' a' n' ∧
    (l' = true → l = true) ∧ (a' = true → a = true) ∧ (n ≤ n')%nat.
Proof.
  intros Ho H. destruct (children_text i) as [|kw kids] eqn:Ek.
  { unfold expand_cell in H. rewrite Ek in H. injection H as <- _.
    by exists l, a, n. }
  destruct (in_template_settings kw) eqn:Hin.
  - rewrite (expand_cell_options _ _ _ _ _ _ _ Ek Hin H). by apply scan_lis_order.
  - unfold expand_cell in H. rewrite Ek, Hin in H. injection H as <- _.
    by exists l, a, n.
Qed.

(** X17.  Along the cells of a document [loop] and [autoplay] can only
    be taken out of the option string, never put back, and [controls] is
    only added: if the string a run of cells starts from is an option
    string, so is the one it ends with, with [loop ] in it only if it was
    there before, [autoplay ] likewise, and at least as many
    [ controls]. *)
Theorem options_never_come_back loc cs loc' os l a n :
  mp4_options loc = option_string l a n →
  expand_cells lower loc cs = Ok (loc', os) →
  (∃ l' a' n',
     mp4_options loc' = option_string l' a' n' ∧
     (l' = true → l = true) ∧ (a' = true → a = true) ∧ (n ≤ n')%nat) ∧
  (contains (py "loop ") (mp4_options loc) = false →
   contains (py "loop ") (mp4_options loc') = false) ∧
  (contains (py "autoplay ") (mp4_options loc) = false →
   contains (py "autoplay ") (mp4_options loc') = false).
Proof.
  intros Ho H.
  assert (G : ∃ l' a' n',
             mp4_options loc' = option_string l' a' n' ∧
             (l' = true → l = true) ∧ (a' = true → a = true) ∧ (n ≤ n')%nat).
  { revert loc os l a n Ho H.
    induction cs as [|i cs IH]; intros loc os l a n Ho H.
    - injection H as <- _. by exists l, a, n.
    - simpl in H. destruct (expand_cell lower loc i) as [[l1 o]|e] eqn:E; [|done].
      simpl in H.
      destruct (expand_cells lower l1 cs) as [[l2 os']|e] eqn:E2; [|done].
      simpl in H. injection H as <- _.
      destruct (expand_cell_order _ _ _ _ _ _ _ Ho E) as (x & y & z & H1 & Hx & Hy & Hz).
      destruct (IH _ _ _ _ _ H1 E2) as (x' & y' & z' & H2 & Hx' & Hy' & Hz').
      exists x', y', z'. split_and!; [done|tauto|tauto|lia]. }
  split; [exact G|].
  destruct G as (l' & a' & n' & H' & Hl & Ha & _).
  rewrite Ho, H', !loop_in_option_string, !autoplay_in_option_string.
  split; intros ->; [by destruct l'; [destruct (Hl eq_refl)|]
                    |by destruct a'; [destruct (Ha eq_refl)|]].
Qed.

End OptionsOrder.

Lemma scan_keeps loc i kw st o vs :
  str_eqb kw (py "!mp4") = false →
  scan_lis kw (mp4_options loc) (li_text i) =
    {| style_str := st; options := o; values := vs |} →
  o = mp4_options loc.
Proof.
  intros Hkw Hsc.
  pose proof (scan_lis_keeps_options kw (mp4_options loc) (li_text i) Hkw) as Ho.
  by rewrite Hsc in Ho.
Qed.

Lemma hyphenate_no_space title :
  (32 ∉ map hyphenate title) ∧ (12288 ∉ map hyphenate title).
Proof.
  split; rewrite list_elem_of_In, in_map_iff; intros (c & Hc & _);
    unfold hyphenate in Hc;
    destruct (c =? 32) eqn:E1; try discriminate;
    destruct (c =? 12288) eqn:E2; try discriminate;
    subst c; discriminate.
Qed.

Section MoreTemplates.
Variable lower : str -> str.
Implicit Types (loc : locals) (i : text_cell) (q v : str).


(** X18.  A [!image] cell.  With one positional value the image is at
    [{filename}images/] followed by the value and nothing else is shown.
    With more, the image is at [{filename}/images/] (with a slash before
    [images]) followed by the first value, the second value is the
    caption, a third is the address of a link named [圖片來源] and a
    fourth, if there is one, is the name of that link instead. *)
Theorem image_sources loc i kids st o vs f :
  children_text i = py "!image" :: kids →
  scan_lis (py "!image") (mp4_options loc) (li_text i) =
    {| style_str := st; options := o; values := vs |} →
  has_p i = true → has_ul i = true →
  (vs = [f] →
   ∃ html_str,
     expand_cell lower loc i = Ok (loc, Expanded html_str) ∧
     contains (py " src=" ++ dq ++ py "{filename}images/" ++ f ++ dq ++ py "/>")
              html_str = true) ∧
  (∀ d rest, vs = f :: d :: rest →
   ∃ html_str,
     expand_cell lower loc i = Ok (loc, Expanded html_str) ∧
     contains (py " src=" ++ dq ++ py "{filename}/images/" ++ f ++ dq ++ py ">")
              html_str = true ∧
     contains d html_str = true ∧
     (∀ link, rest = [link] →
        contains (dq ++ link ++ dq ++ py " target=" ++ dq ++ py "_blank" ++ dq ++
                  py ">圖片來源</a>）") html_str = true) ∧
     (∀ link name, rest = [link; name] →
        contains (dq ++ link ++ dq ++ py " target=" ++ dq ++ py "_blank" ++ dq ++
                  py ">" ++ name ++ py "</a>）") html_str = true)).
Proof.
  intros Hk Hsc Hp Hu.
  pose proof (scan_keeps loc i (py "!image") _ _ _
                ltac:(vm_compute; reflexivity) Hsc) as ->.
  set (style := if truthy st then py "style=" ++ dq ++ st ++ dq else []).
  split.
  - intros ->. exists (image_html [] style f). split.
    + open_cell Hk. rewrite Hsc. cbn [values style_str options].
      unfold template. keyword_is "!image". unfold image. simpl.
      by rewrite Hp, Hu, locals_eta.
    + unfold image_html. find_pieces.
  - intros d rest ->.
    set (source_str :=
           match rest with
           | [link] => image_source_link link
           | [link; name] => image_source_name link name
           | _ => []
           end).
    exists (image_caption_html [] style f d source_str). split_and!.
    + open_cell Hk. rewrite Hsc. cbn [values style_str options].
      unfold template. keyword_is "!image". unfold image, source_str.
      destruct rest as [|l1 [|n1 [|x rest]]]; simpl;
        by rewrite Hp, Hu, locals_eta.
    + unfold image_caption_html. find_pieces.
    + unfold image_caption_html. find_pieces.
    + intros link ->. unfold image_caption_html, source_str, image_source_link.
      rewrite <- !app_assoc. find_pieces.
    + intros link name ->. unfold image_caption_html, source_str, image_source_name.
      rewrite <- !app_assoc. find_pieces.
Qed.

(** X19.  A [!quote] cell with two positional values: leaving white
    space aside, the fragment is a [blockquote] around a [p] that holds
    the quote, a [br], the right-floated [span] with a dash and the
    second value, and a [br]. *)
Theorem quote_with_author loc i kids st o q a :
  children_text i = py "!quote" :: kids →
  scan_lis (py "!quote") (mp4_options loc) (li_text i) =
    {| style_str := st; options := o; values := [q; a] |} →
  has_p i = true → has_ul i = true →
  ∃ html_str,
    expand_cell lower loc i = Ok (loc, Expanded html_str) ∧
    squeeze html_str =
      py "<blockquote><p>" ++ squeeze q ++ py "<br><spanstyle=" ++ dq ++
      py "float:right;margin-right:1.5rem" ++ dq ++ py ">─" ++ squeeze a ++
      py "</span><br></p></blockquote>".
Proof.
  intros Hk Hsc Hp Hu.
  pose proof (scan_keeps loc i (py "!quote") _ _ _
                ltac:(vm_compute; reflexivity) Hsc) as ->.
  exists (quote_html q (quote_author_intro a)). split.
  - open_cell Hk. rewrite Hsc. cbn [values style_str options].
    unfold template. keyword_is "!quote". unfold quote. simpl.
    by rewrite Hp, Hu, locals_eta.
  - unfold quote_html, quote_author_intro. rewrite <- !app_assoc.
    rewrite !squeeze_app. vm_compute. reflexivity.
Qed.


(** X20.  A well-formed [!article] cell: the heading has as its [id] the
    title with each space and each ideographic space turned into a
    hyphen, so an [id] without either of them and as long as the title;
    the anchor link points at that same [id]; the title itself is the
    text of a link to the second value, and the third value is the
    image under [{filename}images/digests/]. *)
Theorem article_heading loc i kids st o title link image :
  children_text i = py "!article" :: kids →
  scan_lis (py "!article") (mp4_options loc) (li_text i) =
    {| style_str := st; options := o; values := [title; link; image] |} →
  has_p i = true → has_ul i = true →
  ∃ html_str,
    expand_cell lower loc i = Ok (loc, Expanded html_str) ∧
    contains (py "<h2 id=" ++ dq ++ map hyphenate title ++ dq ++ py ">") html_str = true ∧
    contains (py " href=" ++ dq ++ py "#" ++ map hyphenate title ++ dq) html_str = true ∧
    contains (py "<a href=" ++ dq ++ link ++ dq ++ py " target=" ++ dq ++ py "_blank" ++
              dq ++ py ">" ++ title ++ py "</a>") html_str = true ∧
    contains (py "<img src=" ++ dq ++ py "{filename}images/digests/" ++ image ++ dq)
             html_str = true ∧
    (32 ∉ map hyphenate title) ∧ (12288 ∉ map hyphenate title) ∧
    List.length (map hyphenate title) = List.length title.
Proof.
  intros Hk Hsc Hp Hu.
  pose proof (scan_keeps loc i (py "!article") _ _ _
                ltac:(vm_compute; reflexivity) Hsc) as ->.
  set (style := if truthy st then py "style=" ++ dq ++ st ++ dq else []).
  exists (article_html (map hyphenate title) link title image style).
  split_and!.
  - open_cell Hk. rewrite Hsc. cbn [values style_str options].
    unfold template. keyword_is "!article". rewrite article_anchor.
    cbn [mbind result_bind]. by rewrite Hp, Hu, locals_eta.
  - unfold article_html.
    change (py "                <h2 id=") with (py "                " ++ py "<h2 id=").
    rewrite <- !app_assoc. find_pieces.
  - unfold article_html. find_pieces.
  - unfold article_html.
    change (py "                    <a href=")
      with (py "                    " ++ py "<a href=").
    change (py "</a><a class=") with (py "</a>" ++ py "<a class=").
    rewrite <- !app_assoc. find_pieces.
  - unfold article_html.
    change (py "                        <img src=")
      with (py "                        " ++ py "<img src=").
    rewrite <- !app_assoc. find_pieces.
  - apply hyphenate_no_space.
  - apply hyphenate_no_space.
  - apply length_map.
Qed.

(** X21.  Modifiers of an [!image] cell.  A list item [style:] followed
    by CSS that has no further [style:] in it is no positional value: the
    CSS becomes the [style] attribute of the image; the item [dark] adds
    [mix-blend-mode: initial;] to it; without either there is no [style]
    attribute. *)
Theorem image_style loc kids f css :
  str_eqb f (py "dark") = false →
  startswith (py "style:") f = false →
  contains (py "style:") css = false →
  expand_cell lower loc
    {| children_text := py "!image" :: kids; li_text := [f; py "style:" ++ css; py "dark"];
       has_p := true; has_ul := true |} =
    Ok (loc, Expanded (image_html []
                         (py "style=" ++ dq ++ (css ++ py "mix-blend-mode: initial;") ++ dq)
                         f)) ∧
  expand_cell lower loc
    {| children_text := py "!image" :: kids; li_text := [f];
       has_p := true; has_ul := true |} =
    Ok (loc, Expanded (image_html [] [] f)).
Proof.
  intros Hd Hs Hc.
  assert (H1 : ∀ acc, scan_li (py "!image") acc f =
                      {| style_str := style_str acc; options := options acc;
                         values := values acc ++ [f] |}).
  { intros acc. by apply scan_li_value. }
  assert (H2 : ∀ acc, scan_li (py "!image") acc (py "style:" ++ css) =
                      {| style_str := style_str acc ++ css; options := options acc;
                         values := values acc |}).
  { intros acc. unfold scan_li.
    change (str_eqb (py "style:" ++ css) (py "dark")) with false.
    rewrite startswith_app_self. cbn iota.
    rewrite replace_head by (vm_compute; discriminate).
    rewrite replace_clean; [done|vm_compute; discriminate|done]. }
  assert (H3 : ∀ acc, scan_li (py "!image") acc (py "dark") =
                      {| style_str := style_str acc ++ py "mix-blend-mode: initial;";
                         options := options acc; values := values acc |}).
  { intros acc. unfold scan_li. by rewrite str_eqb_refl. }
  split.
  - erewrite expand_cell_keyword by (done || (vm_compute; reflexivity)).
    cbn [li_text scan_lis fold_left has_p has_ul]. rewrite H1, H2, H3.
    cbn [values style_str options app].
    destruct (css ++ py "mix-blend-mode: initial;") as [|c0 s0] eqn:E.
    { apply (f_equal List.length) in E. rewrite length_app in E.
      change (List.length (py "mix-blend-mode: initial;")) with 24%nat in E.
      simpl in E. lia. }
    cbn [truthy]. unfold template. keyword_is "!image". unfold image. simpl.
    by rewrite locals_eta.
  - erewrite expand_cell_keyword by (done || (vm_compute; reflexivity)).
    cbn [li_text scan_lis fold_left has_p has_ul]. rewrite H1.
    cbn [values style_str options app truthy].
    unfold template. keyword_is "!image". unfold image. simpl.
    by rewrite locals_eta.
Qed.

(** X22.  An [!mp4] cell with five or more positional values uses none
    of them: the fragment is the [video] tag with the current options, an
    empty poster and an empty source, and no caption. *)
Theorem mp4_many_values loc i kids st o vs :
  children_text i = py "!mp4" :: kids →
  scan_lis (py "!mp4") (mp4_options loc) (li_text i) =
    {| style_str := st; options := o; values := vs |} →
  (5 ≤ List.length vs)%nat →
  has_p i = true → has_ul i = true →
  expand_cell lower loc i =
    Ok ({| mp4_options := o; video_id := video_id loc |},
        Expanded (mp4_html o [] [] []
                    (if truthy st then py "style=" ++ dq ++ st ++ dq else [])
                    (py "<br>"))).
Proof.
  intros Hk Hsc Hn Hp Hu. open_cell Hk. rewrite Hsc.
  cbn [values style_str options].
  destruct vs as [|v1 [|v2 [|v3 [|v4 [|v5 vs]]]]]; try (simpl in Hn; lia).
  unfold template. keyword_is "!mp4". unfold mp4, mp4_arguments.
  cbn [mbind result_bind mp4_options truthy]. by rewrite Hp, Hu.
Qed.

End MoreTemplates.


Lemma expand_cell_no_keyword_witness :
  expand_cell ascii_lower initial_locals (markdown_cell "Some text" ["a"; "b"]) =
    Ok (initial_locals, Unchanged).
Proof.
  apply expand_cell_no_keyword. intros t Ht.
  cbn [markdown_cell children_text head] in Ht. injection Ht as <-.
  intros H. apply in_template_settings_keywords in H. revert H.
  vm_compute. discriminate.
Defined.


Lemma mp4_options_only_witness :
  expand_cell ascii_lower initial_locals (markdown_cell "!mp4" ["options: controls"]) =
    Ok ({| mp4_options :=
             options (scan_lis (py "!mp4") (mp4_options initial_locals)
                               (li_text (markdown_cell "!mp4" ["options: controls"])));
           video_id := video_id initial_locals |}, Unchanged).
Proof.
  apply (mp4_options_only ascii_lower initial_locals
           (markdown_cell "!mp4" ["options: controls"]) _ eq_refl).
  change (li_text (markdown_cell "!mp4" ["options: controls"]))
    with [py "options: controls"].
  apply List.Forall_cons; [|apply List.Forall_nil].
  split_and!; vm_compute; reflexivity.
Defined.

Lemma missing_p_or_ul_witness :
  expand_cell ascii_lower initial_locals
    {| children_text := [py "!quote"; py "q"]; li_text := [py "q"];
       has_p := true; has_ul := false |} = Raise AttributeError.
Proof.
  apply (missing_p_or_ul ascii_lower initial_locals
           {| children_text := [py "!quote"; py "q"]; li_text := [py "q"];
              has_p := true; has_ul := false |} (py "!quote") [py "q"] eq_refl).
  - by left.
  - vm_compute. discriminate.
  - by right.
Defined.

Lemma youtube_many_values_witness :
  expand_cell ascii_lower initial_locals
    (markdown_cell "!youtube" ["a"; "b"; "c"; "d"; "e"]) = Raise UnboundLocalError ∧
  expand_cell ascii_lower {| mp4_options := py "muted playsinline"; video_id := Some (py "xyz") |}
    (markdown_cell "!youtube" ["a"; "b"; "c"; "d"; "e"]) =
    Ok ({| mp4_options := py "muted playsinline"; video_id := Some (py "xyz") |},
        Expanded (youtube_html (py "xyz") [] (py "<br>"))).
Proof.
  split.
  - refine (proj1 (youtube_many_values ascii_lower initial_locals
                     (markdown_cell "!youtube" ["a"; "b"; "c"; "d"; "e"]) _ []
                     (py "loop autoplay muted playsinline")
                     [py "a"; py "b"; py "c"; py "d"; py "e"] eq_refl _ _) eq_refl).
    + vm_compute. reflexivity.
    + simpl. lia.
  - refine (proj2 (youtube_many_values ascii_lower
                     {| mp4_options := py "muted playsinline"; video_id := Some (py "xyz") |}
                     (markdown_cell "!youtube" ["a"; "b"; "c"; "d"; "e"]) _ []
                     (py "muted playsinline")
                     [py "a"; py "b"; py "c"; py "d"; py "e"] eq_refl _ _)
                  (py "xyz") eq_refl eq_refl eq_refl).
    + vm_compute. reflexivity.
    + simpl. lia.
Defined.

Lemma youtube_id_only_witness :
  ∃ html_str,
    expand_cell ascii_lower initial_locals
      (markdown_cell "!youtube" ["dQw4w9WgXcQ"; "a song"]) =
      Ok ({| mp4_options := mp4_options initial_locals;
             video_id := Some (py "dQw4w9WgXcQ") |}, Expanded html_str) ∧
    contains (py "src=" ++ dq ++ iframe_src (py "dQw4w9WgXcQ") [] ++ dq) html_str = true ∧
    contains (py "?start=") (iframe_src (py "dQw4w9WgXcQ") []) = false.
Proof.
  destruct (youtube_id_only ascii_lower initial_locals
              (markdown_cell "!youtube" ["dQw4w9WgXcQ"; "a song"]) _ []
              (py "loop autoplay muted playsinline")
              [py "dQw4w9WgXcQ"; py "a song"] (py "dQw4w9WgXcQ") eq_refl
              ltac:(vm_compute; reflexivity) eq_refl eq_refl
              (or_intror (ex_intro _ (py "a song") eq_refl)))
    as (h & H1 & H2 & _ & H4).
  exists h. split_and!; [exact H1|exact H2|]. apply H4. not_in_literal.
Defined.

Lemma options_never_come_back_witness :
  mp4_options initial_locals = option_string true true 0 ∧
  ∃ l' a' n',
    mp4_options {| mp4_options := py "autoplay muted playsinline controls";
                   video_id := None |} = option_string l' a' n' ∧
    (l' = true → true = true) ∧ (a' = true → true = true) ∧ (0 ≤ n')%nat.
Proof.
  assert (H0 : mp4_options initial_locals = option_string true true 0)
    by (vm_compute; reflexivity).
  split; [exact H0|].
  refine (proj1 (options_never_come_back ascii_lower initial_locals
            [markdown_cell "!mp4" ["a.mp4"; "options: no_loop, controls"]]
            {| mp4_options := py "autoplay muted playsinline controls"; video_id := None |}
            [Expanded (mp4_html (py "autoplay muted playsinline controls")
                                (py "a.mp4") [] [] [] (py "<br>"))]
            true true 0 H0 _)).
  vm_compute. reflexivity.
Defined.

Lemma image_sources_witness :
  (∃ html_str,
     expand_cell ascii_lower initial_locals (markdown_cell "!image" ["cat.png"]) =
       Ok (initial_locals, Expanded html_str) ∧
     contains (py " src=" ++ dq ++ py "{filename}images/" ++ py "cat.png" ++ dq ++ py "/>")
              html_str = true) ∧
  (∃ html_str,
     expand_cell ascii_lower initial_locals
       (markdown_cell "!image" ["cat.png"; "A cat"; "http://x.org"]) =
       Ok (initial_locals, Expanded html_str) ∧
     contains (py " src=" ++ dq ++ py "{filename}/images/" ++ py "cat.png" ++ dq ++ py ">")
              html_str = true ∧
     contains (py "A cat") html_str = true ∧
     contains (dq ++ py "http://x.org" ++ dq ++ py " target=" ++ dq ++ py "_blank" ++ dq ++
               py ">圖片來源</a>）") html_str = true).
Proof.
  split.
  - apply (proj1 (image_sources ascii_lower initial_locals
                    (markdown_cell "!image" ["cat.png"]) _ []
                    (py "loop autoplay muted playsinline") [py "cat.png"] (py "cat.png")
                    eq_refl ltac:(vm_compute; reflexivity) eq_refl eq_refl) eq_refl).
  - destruct (proj2 (image_sources ascii_lower initial_locals
                    (markdown_cell "!image" ["cat.png"; "A cat"; "http://x.org"]) _ []
                    (py "loop autoplay muted playsinline")
                    [py "cat.png"; py "A cat"; py "http://x.org"] (py "cat.png")
                    eq_refl ltac:(vm_compute; reflexivity) eq_refl eq_refl)
                  (py "A cat") [py "http://x.org"] eq_refl)
      as (h & H1 & H2 & H3 & H4 & _).
    exists h. split_and!; [exact H1|exact H2|exact H3|exact (H4 _ eq_refl)].
Defined.

Lemma quote_with_author_witness :
  ∃ html_str,
    expand_cell ascii_lower initial_locals
      (markdown_cell "!quote" ["Life is short"; "Someone"]) =
      Ok (initial_locals, Expanded html_str) ∧
    squeeze html_str =
      py "<blockquote><p>" ++ squeeze (py "Life is short") ++ py "<br><spanstyle=" ++ dq ++
      py "float:right;margin-right:1.5rem" ++ dq ++ py ">─" ++ squeeze (py "Someone") ++
      py "</span><br></p></blockquote>".
Proof.
  apply (quote_with_author ascii_lower initial_locals
           (markdown_cell "!quote" ["Life is short"; "Someone"]) _ []
           (py "loop autoplay muted playsinline") (py "Life is short") (py "Someone")
           eq_refl ltac:(vm_compute; reflexivity) eq_refl eq_refl).
Defined.

Lemma article_heading_witness :
  ∃ html_str,
    expand_cell ascii_lower initial_locals
      (markdown_cell "!article" ["A b　c"; "http://x.org"; "c.png"]) =
      Ok (initial_locals, Expanded html_str) ∧
    contains (py "<h2 id=" ++ dq ++ map hyphenate (py "A b　c") ++ dq ++ py ">")
             html_str = true ∧
    contains (py " href=" ++ dq ++ py "#" ++ map hyphenate (py "A b　c") ++ dq)
             html_str = true.
Proof.
  destruct (article_heading ascii_lower initial_locals
              (markdown_cell "!article" ["A b　c"; "http://x.org"; "c.png"]) _ []
              (py "loop autoplay muted playsinline")
              (py "A b　c") (py "http://x.org") (py "c.png")
              eq_refl ltac:(vm_compute; reflexivity) eq_refl eq_refl)
    as (h & H1 & H2 & H3 & _).
  exists h. split_and!; assumption.
Defined.

Lemma image_style_witness :
  str_eqb (py "cat.png") (py "dark") = false ∧
  startswith (py "style:") (py "cat.png") = false ∧
  contains (py "style:") (py "width:50%;") = false ∧
  expand_cell ascii_lower initial_locals
    {| children_text := py "!image" :: [];
       li_text := [py "cat.png"; py "style:" ++ py "width:50%;"; py "dark"];
       has_p := true; has_ul := true |} =
    Ok (initial_locals,
        Expanded (image_html []
                    (py "style=" ++ dq ++
                     (py "width:50%;" ++ py "mix-blend-mode: initial;") ++ dq)
                    (py "cat.png"))).
Proof.
  split; [vm_compute; reflexivity|]. split; [vm_compute; reflexivity|].
  split; [vm_compute; reflexivity|].
  apply (proj1 (image_style ascii_lower initial_locals [] (py "cat.png") (py "width:50%;")
                  ltac:(vm_compute; reflexivity) ltac:(vm_compute; reflexivity)
                  ltac:(vm_compute; reflexivity))).
Defined.

Lemma mp4_many_values_witness :
  expand_cell ascii_lower initial_locals
    (markdown_cell "!mp4" ["a.mp4"; "b.jpg"; "c"; "http://d"; "e"]) =
    Ok ({| mp4_options := py "loop autoplay muted playsinline";
           video_id := video_id initial_locals |},
        Expanded (mp4_html (py "loop autoplay muted playsinline") [] [] []
                    (if truthy [] then py "style=" ++ dq ++ [] ++ dq else [])
                    (py "<br>"))).
Proof.
  apply (mp4_many_values ascii_lower initial_locals
           (markdown_cell "!mp4" ["a.mp4"; "b.jpg"; "c"; "http://d"; "e"]) _ []
           (py "loop autoplay muted playsinline")
           [py "a.mp4"; py "b.jpg"; py "c"; py "http://d"; py "e"] eq_refl).
  - vm_compute. reflexivity.
  - simpl. lia.
  - reflexivity.
  - reflexivity.
Defined.


(** * The text of a [#blockquote] cell *)

Section BlockquoteFacts.
Import Blockquote.

Lemma one_space_test e :
  str_eqb (replace (py " ") (py " ") (replace (py "　") (py " ") e)) (py " ") =
  str_eqb e [0x20] || str_eqb e [0x3000].
Proof.
  change (py " ") with [32]. change (py "　") with [12288].
  rewrite !replace_char, map_map.
  destruct e as [|c [|d e]]; [done| |].
  - simpl. destruct (N.eqb_spec c 12288) as [->|H1]; [done|].
    rewrite orb_false_r.
    destruct (N.eqb_spec c 32) as [->|H2]; simpl; [done|].
    rewrite !andb_true_r. by apply N.eqb_neq.
  - simpl. by rewrite !andb_false_r.
Qed.

Lemma fold_add_text contents acc :
  fold_left add_text contents acc = acc ++ concat (map kept_text contents).
Proof.
  revert acc. induction contents as [|e l IH]; intros acc;
    cbn [fold_left map concat].
  - by rewrite app_nil_r.
  - rewrite IH. rewrite (app_assoc acc). f_equal.
    destruct e as [t|e]; cbn [add_text kept_text]; [done|].
    rewrite one_space_test.
    destruct (str_eqb e [32] || str_eqb e [12288]); [done|by rewrite app_nil_r].
Qed.

(** X23.  The text of the blockquote is made of the children of [pre]
    after the first two, in order: the text of each one that has a text,
    and of the bare strings only those that are exactly one space or one
    ideographic space (U+3000), kept as they are; every other bare
    string, a line break among them, adds nothing. *)
Theorem raw_text_kept contents :
  raw_text contents = concat (map kept_text (drop 2 contents)) ∧
  (∀ acc e, e = [0x20] ∨ e = [0x3000] → add_text acc (without_text e) = acc ++ e) ∧
  (∀ acc e, e ≠ [0x20] → e ≠ [0x3000] → add_text acc (without_text e) = acc).
Proof.
  split_and!.
  - unfold raw_text. by rewrite fold_add_text.
  - intros acc e He. unfold add_text. rewrite one_space_test.
    by destruct He as [-> | ->].
  - intros acc e H1 H2. unfold add_text. rewrite one_space_test.
    destruct (str_eqb e [32]) eqn:E1; [by apply str_eqb_eq in E1|].
    destruct (str_eqb e [12288]) eqn:E2; [by apply str_eqb_eq in E2|]. done.
Qed.

End BlockquoteFacts.

(** * The highlighter adapter *)

Section HighlighterFacts.
Import Highlighter.


Lemma replace_pre_eq s :
  replace (py "<pre>") (py "<pre class=" ++ dq ++ py "ipynb" ++ dq ++ py ">") s =
  replace_from bare_pre classed_pre 0 s.
Proof. reflexivity. Qed.

Lemma pre_step c s :
  replace_from bare_pre classed_pre 0 (c :: s) =
  if startswith bare_pre (c :: s)
  then classed_pre ++ replace_from bare_pre classed_pre 0 (drop 4 s)
  else c :: replace_from bare_pre classed_pre 0 s.
Proof.
  cbn [replace_from]. destruct (startswith bare_pre (c :: s)); [|done].
  f_equal. apply replace_from_skip.
Qed.

(** What is put in begins with [<], which the rest of [<pre>] does not
    have: text that follows a [<] in the result followed it before. *)
Lemma pre_tail_back q s :
  60 ∉ q →
  startswith q (replace_from bare_pre classed_pre 0 s) = true →
  startswith q s = true.
Proof.
  revert s. induction q as [|x q IH]; intros s Hq H; [by destruct s|].
  apply not_elem_of_cons in Hq as [Hx Hq].
  destruct s as [|c s]; [done|].
  rewrite pre_step in H. destruct (startswith bare_pre (c :: s)).
  - exfalso. unfold classed_pre in H. simpl in H.
    apply andb_true_iff in H as [H _]. apply N.eqb_eq in H. congruence.
  - simpl in *. apply andb_true_iff in H as [H1 H2].
    rewrite H1. simpl. by apply IH.
Qed.

Lemma pre_after_class x :
  contains bare_pre (classed_pre ++ x) = contains bare_pre x.
Proof. vm_compute. reflexivity. Qed.

Lemma no_bare_pre n s :
  (List.length s ≤ n)%nat →
  contains bare_pre (replace_from bare_pre classed_pre 0 s) = false.
Proof.
  revert s. induction n as [|n IH]; intros s Hn.
  { destruct s; [done|simpl in Hn; lia]. }
  destruct s as [|c s]; [done|]. simpl in Hn.
  rewrite pre_step. destruct (startswith bare_pre (c :: s)) eqn:E.
  - rewrite pre_after_class. apply IH. rewrite length_drop. lia.
  - change (contains bare_pre (c :: replace_from bare_pre classed_pre 0 s))
      with (startswith bare_pre (c :: replace_from bare_pre classed_pre 0 s) ||
            contains bare_pre (replace_from bare_pre classed_pre 0 s)).
    rewrite IH by lia. rewrite orb_false_r.
    apply not_true_is_false. intros H.
    assert (Hs : ∀ x t, startswith bare_pre (x :: t) =
                        (60 =? x) && startswith [112; 114; 101; 62] t)
      by reflexivity.
    rewrite Hs in H, E.
    apply andb_true_iff in H as [H1 H2]. rewrite H1 in E.
    apply (pre_tail_back [112; 114; 101; 62]) in H2.
    + rewrite H2 in E. discriminate.
    + apply not_elem_of_existsb. reflexivity.
Qed.

Variable formatter : Type.
Variable HtmlFormatter : str -> formatter.
Variable cell_metadata : Type.
Variable highlight : str -> formatter -> str -> option cell_metadata -> str.

(** X24.  Whatever pygments returns, the result has no [<pre>] left: each
    one has got the class [ipynb] and none comes about by the
    replacement; the highlighting is asked with the formatter of class
    [highlight-ipynb] and with ['python'] when the language is [None] or
    empty; and a highlighting without [<pre>] is returned as it is. *)
Theorem custom_highlighter_pre (source : str) (language : option str)
        (metadata : option cell_metadata) :
  contains (py "<pre>")
           (custom_highlighter formatter HtmlFormatter cell_metadata highlight
                               source language metadata) = false ∧
  (language = None ∨ language = Some [] →
   custom_highlighter formatter HtmlFormatter cell_metadata highlight
                      source language metadata =
   custom_highlighter formatter HtmlFormatter cell_metadata highlight
                      source (Some (py "python")) metadata) ∧
  (∀ l, language = Some l → l ≠ [] →
        contains (py "<pre>")
                 (highlight source (HtmlFormatter (py "highlight-ipynb")) l metadata)
        = false →
        custom_highlighter formatter HtmlFormatter cell_metadata highlight
                           source language metadata =
        highlight source (HtmlFormatter (py "highlight-ipynb")) l metadata) ∧
  (∀ l rest, language = Some l → l ≠ [] →
        highlight source (HtmlFormatter (py "highlight-ipynb")) l metadata =
          py "<pre>" ++ rest →
        contains (py "<pre>") rest = false →
        custom_highlighter formatter HtmlFormatter cell_metadata highlight
                           source language metadata =
        py "<pre class=" ++ dq ++ py "ipynb" ++ dq ++ py ">" ++ rest).
Proof.
  split_and!.
  - unfold custom_highlighter. cbn zeta. rewrite replace_pre_eq.
    change (py "<pre>") with bare_pre. by eapply no_bare_pre.
  - by intros [-> | ->].
  - intros l -> Hl H. unfold custom_highlighter. destruct l as [|c l]; [done|].
    cbn zeta. apply replace_clean; [|done]. vm_compute. discriminate.
  - intros l rest -> Hl H Hr. unfold custom_highlighter.
    destruct l as [|c l]; [done|]. cbn zeta. rewrite H.
    rewrite replace_head by (vm_compute; discriminate).
    rewrite (replace_clean _ _ rest); [|vm_compute; discriminate|done].
    by rewrite <- !app_assoc.
Qed.

End HighlighterFacts.

Import Highlighter.

Lemma custom_highlighter_pre_witness :
  contains (py "<pre>") (py "<span>x</span>") = false ∧
  custom_highlighter unit (fun _ => tt) unit
    (fun source _ _ _ => py "<pre>" ++ source) (py "<span>x</span>")
    (Some (py "python")) None =
  py "<pre class=" ++ dq ++ py "ipynb" ++ dq ++ py ">" ++ py "<span>x</span>".
Proof.
  split; [vm_compute; reflexivity|].
  refine (proj2 (proj2 (proj2 (custom_highlighter_pre unit (fun _ => tt) unit
            (fun source _ _ _ => py "<pre>" ++ source) (py "<span>x</span>")
            (Some (py "python")) None))) (py "python") (py "<span>x</span>")
            eq_refl _ eq_refl _).
  - vm_compute. discriminate.
  - vm_compute. reflexivity.
Defined.

Lemma raw_text_kept_witness :
  [0x0A] ≠ [0x20] ∧ [0x0A] ≠ [0x3000] ∧
  Blockquote.add_text (py "a") (Blockquote.without_text [0x0A]) = py "a" ∧
  Blockquote.add_text (py "a") (Blockquote.without_text [0x3000]) = py "a" ++ [0x3000].
Proof.
  assert (H1 : [0x0A] ≠ [0x20]) by discriminate.
  assert (H2 : [0x0A] ≠ [0x3000]) by discriminate.
  split; [exact H1|]. split; [exact H2|]. split.
  - exact (proj2 (proj2 (raw_text_kept [])) (py "a") [0x0A] H1 H2).
  - exact (proj1 (proj2 (raw_text_kept [])) (py "a") [0x3000] (or_intror eq_refl)).
Defined.
